(** * DE_Challenge: the transformation and validation engine

    A shallow embedding of [dags/etl/transformation.py],
    [dags/etl/data_validations/data_validator.py],
    [dags/etl/data_quality_checks/data_quality.py] and of the part of
    [dags/data_pipeline_mongodb_to_postgres.py] and [dags/etl/load_data.py]
    that hands a transformed table to the sink.

    Conventions.
    - A JSON document is a Python [dict]; dicts keep insertion order, so they
      are association lists.  Cells of a data frame are Python objects
      (the [object] dtype); JSON numbers are integers.
    - Exceptions are values of [exn]; a computation that may raise returns a
      [result].  The quality checks receive the caller's frame and may assign
      to it, so they live in a state-and-error monad over the frame.
    - The YAML file [column_mappings.yml] is not part of the sources: its two
      tables ([column_mappings], [schema_definitions]) are parameters
      ([Config]).
    - What pandas delegates to its parsers (dateutil, numeric parsing, [repr]
      of containers) is the interface [PandasLib]. *)

From Stdlib Require Import List String Ascii ZArith Bool Lia DecimalString.
Import ListNotations.
Open Scope string_scope.

(* ================================================================== *)
(** * Python values *)

Set Warnings "-register-all".

Inductive value : Type :=
| VNone                                  (* None, JSON null *)
| VNaN                                   (* float('nan'): pandas' missing cell *)
| VBool (b : bool)
| VInt (z : Z)
| VStr (s : string)
| VList (l : list value)
| VDict (d : list (string * value)).

Definition record : Type := list (string * value).

(** [d[k] = v]: overwrite in place, or append. *)
Fixpoint dict_set (k : string) (v : value) (d : record) : record :=
  match d with
  | [] => [(k, v)]
  | (k', v') :: d' =>
      if String.eqb k k' then (k, v) :: d' else (k', v') :: dict_set k v d'
  end.

(** [d.get(k)] *)
Fixpoint dict_get (k : string) (d : record) : option value :=
  match d with
  | [] => None
  | (k', v) :: d' => if String.eqb k k' then Some v else dict_get k d'
  end.

Definition dict_keys (d : record) : list string := map fst d.

(** [{**a, **b}] *)
Definition dict_merge (a b : record) : record :=
  fold_left (fun acc kv => dict_set (fst kv) (snd kv) acc) b a.

Definition mem (x : string) (l : list string) : bool := existsb (String.eqb x) l.

(** The distinct elements of [l], in order of first appearance. *)
Fixpoint uniq_from (seen l : list string) : list string :=
  match l with
  | [] => []
  | x :: xs => if mem x seen then uniq_from seen xs else x :: uniq_from (x :: seen) xs
  end.

Definition uniq (l : list string) : list string := uniq_from [] l.

(** [bool(v)] *)
Definition truthy (v : value) : bool :=
  match v with
  | VNone => false
  | VNaN => true
  | VBool b => b
  | VInt z => negb (z =? 0)%Z
  | VStr s => negb (String.eqb s "")
  | VList l => match l with [] => false | _ => true end
  | VDict d => match d with [] => false | _ => true end
  end.

(** [pd.isnull(v)] on one cell *)
Definition isnull (v : value) : bool :=
  match v with VNone | VNaN => true | _ => false end.

(** [v == ""] on one cell *)
Definition is_empty_str (v : value) : bool :=
  match v with VStr s => String.eqb s "" | _ => false end.

Definition is_dict (v : value) : bool :=
  match v with VDict _ => true | _ => false end.

(** The scalars; they are also the cells that can be hashed. *)
Definition is_scalar (v : value) : bool :=
  match v with VList _ | VDict _ => false | _ => true end.

(** Equality of hashable cells as the hash table behind [duplicated] sees
    it: [True == 1], [False == 0], and missing values equal each other. *)
Definition key_eqb (a b : value) : bool :=
  match a, b with
  | VNone, VNone => true
  | VNaN, VNaN => true
  | VBool x, VBool y => Bool.eqb x y
  | VInt x, VInt y => (x =? y)%Z
  | VBool x, VInt y => ((if x then 1 else 0) =? y)%Z
  | VInt x, VBool y => (x =? (if y then 1 else 0))%Z
  | VStr x, VStr y => String.eqb x y
  | _, _ => false
  end.

(* ================================================================== *)
(** * Exceptions *)

(** The messages of the [ValueError]s the program raises. *)
Inductive value_error : Type :=
| InvalidDates (column : string)
| NullOrEmptyId (column : string)
| ExceedsLength (column : string) (max_length : Z)
| BelowLength (column : string) (max_length : Z)
| NonFloat (column : string)
| NonBoolean (column : string)
| NoSchema (table : string)
| MissingColumns (table : string) (missing : list string)
| UnknownCase (case : string).

Inductive pk_rule : Type := NullOrEmpty | Duplicates.

Inductive exn : Type :=
| KeyError (names : list string)
| ValueError (e : value_error)
| TypeError
| AttributeError
| UnboundLocalError (name : string)
| PrimaryKeyViolationException (column : string) (rule : pk_rule)
| RuntimeError (collection : string) (cause : exn)
| SystemExit (code : Z).

(** [isinstance(e, Exception)]: [SystemExit] derives from [BaseException]
    only. *)
Definition is_Exception (e : exn) : bool :=
  match e with SystemExit _ => false | _ => true end.

Inductive result (A : Type) : Type :=
| Ok (a : A)
| Raise (e : exn).

Arguments Ok {A} a.
Arguments Raise {A} e.

Definition bind {A B : Type} (r : result A) (k : A -> result B) : result B :=
  match r with Ok a => k a | Raise e => Raise e end.

Declare Scope result_scope.
Delimit Scope result_scope with result.
Notation "x <- r ;; k" := (bind r (fun x => k))
  (at level 61, r at next level, right associativity) : result_scope.
Open Scope result_scope.

(** A comprehension or loop whose body may raise: left to right, the first
    exception wins. *)
Fixpoint map_result {A B : Type} (f : A -> result B) (l : list A) : result (list B) :=
  match l with
  | [] => Ok []
  | x :: xs => y <- f x ;; ys <- map_result f xs ;; Ok (y :: ys)
  end.

Definition flat_map_result {A B : Type} (f : A -> result (list B)) (l : list A)
  : result (list B) :=
  yss <- map_result f l ;; Ok (List.concat yss).

(** [v[k]] with a string subscript. *)
Definition py_getitem (v : value) (k : string) : result value :=
  match v with
  | VDict d => match dict_get k d with
               | Some x => Ok x
               | None => Raise (KeyError [k])
               end
  | _ => Raise TypeError
  end.

(** [for x in v]: the items a [for] loop visits. *)
Definition py_iter (v : value) : result (list value) :=
  match v with
  | VList l => Ok l
  | VDict d => Ok (map (fun kv => VStr (fst kv)) d)
  | VStr s => Ok (map (fun c => VStr (String c EmptyString)) (list_ascii_of_string s))
  | _ => Raise TypeError
  end.

(* ================================================================== *)
(** * The pandas model *)

(** A frame is a header and its rows; every row has one cell per column. *)
Record DataFrame : Type := mkDF {
  columns : list string;
  rows : list (list value)
}.

Fixpoint index_of (c : string) (cs : list string) : option nat :=
  match cs with
  | [] => None
  | c' :: cs' => if String.eqb c c' then Some 0%nat
                 else option_map S (index_of c cs')
  end.

(** [c in df.columns] *)
Definition has_column (df : DataFrame) (c : string) : bool := mem c (columns df).

Definition cell (i : nat) (row : list value) : value := nth i row VNaN.

(** [df[c]] for one column name. *)
Definition series (df : DataFrame) (c : string) : result (list value) :=
  match index_of c (columns df) with
  | Some i => Ok (map (cell i) (rows df))
  | None => Raise (KeyError [c])
  end.

Fixpoint set_nth (i : nat) (v : value) (row : list value) : list value :=
  match i, row with
  | _, [] => []
  | O, _ :: row' => v :: row'
  | S i', x :: row' => x :: set_nth i' v row'
  end.

(** [df[c] = s] for a column [c] the frame has, [s] aligned with its rows. *)
Definition set_series (df : DataFrame) (c : string) (s : list value) : DataFrame :=
  match index_of c (columns df) with
  | Some i => mkDF (columns df)
                (map (fun rv => set_nth i (snd rv) (fst rv)) (combine (rows df) s))
  | None => df
  end.

Definition get_or_nan (r : record) (c : string) : value :=
  match dict_get c r with Some v => v | None => VNaN end.

(** [pd.DataFrame(records)] for a list of dicts: the columns are the keys in
    order of first appearance, a key a record lacks gives a missing cell. *)
Definition from_records (recs : list record) : DataFrame :=
  let cols := uniq (flat_map dict_keys recs) in
  mkDF cols (map (fun r => map (get_or_nan r) cols) recs).

(** [df[cols]] for a list of names: a new frame, or a [KeyError] that lists
    every name the frame lacks. *)
Definition missing_columns (df : DataFrame) (cols : list string) : list string :=
  filter (fun c => negb (has_column df c)) cols.

Definition getitem_columns (df : DataFrame) (cols : list string) : result DataFrame :=
  match missing_columns df cols with
  | [] =>
      let idx := map (fun c => match index_of c (columns df) with
                               | Some i => i
                               | None => O
                               end) cols in
      Ok (mkDF cols (map (fun row => map (fun i => cell i row) idx) (rows df)))
  | missing => Raise (KeyError missing)
  end.

Fixpoint assoc (k : string) (m : list (string * string)) : option string :=
  match m with
  | [] => None
  | (k', v) :: m' => if String.eqb k k' then Some v else assoc k m'
  end.

(** [df.rename(columns=mappings, inplace=True)] *)
Definition rename (df : DataFrame) (mappings : list (string * string)) : DataFrame :=
  mkDF (map (fun c => match assoc c mappings with Some c' => c' | None => c end)
            (columns df))
       (rows df).

(** [s.fillna(0)] *)
Definition fillna0 (s : list value) : list value :=
  map (fun v => if isnull v then VInt 0 else v) s.

(** [s.duplicated().any()]; hashing a list or a dict raises [TypeError]. *)
Fixpoint has_dup_from (seen s : list value) : bool :=
  match s with
  | [] => false
  | v :: s' => existsb (key_eqb v) seen || has_dup_from (v :: seen) s'
  end.

Definition any_duplicated (s : list value) : result bool :=
  if forallb is_scalar s then Ok (has_dup_from [] s) else Raise TypeError.

(** ** [pd.json_normalize] *)

(** [_normalise_json]: the leaves of a nested dict under dotted keys. *)
Fixpoint normalise_json (key_string : string) (data : value) : list (string * value) :=
  match data with
  | VDict d =>
      flat_map (fun kv =>
                  normalise_json
                    (if String.eqb key_string "" then fst kv
                     else key_string ++ "." ++ fst kv)
                    (snd kv)) d
  | _ => [(key_string, data)]
  end.

(** [_normalise_json_ordered]: the top-level leaves first, then the flattened
    nested dicts. *)
Definition normalise_json_ordered (data : record) : record :=
  let top_dict := filter (fun kv => negb (is_dict (snd kv))) data in
  let nested_dict :=
    fold_left (fun acc kv => dict_set (fst kv) (snd kv) acc)
      (normalise_json "" (VDict (filter (fun kv => is_dict (snd kv)) data))) [] in
  dict_merge top_dict nested_dict.

Definition json_normalize (data : list record) : DataFrame :=
  from_records (map normalise_json_ordered data).

(** ** What pandas delegates to its parsers *)

Class PandasLib : Type := {
  (** [pd.to_datetime(x, errors="coerce")] is null, for the cells the model
      below does not decide *)
  lib_to_datetime_isnull : value -> bool;
  (** [pd.to_numeric(x, errors="coerce")] is null, likewise *)
  lib_to_numeric_isnull : value -> bool;
  (** [str(x)] of a list or a dict *)
  lib_repr : value -> string
}.

Definition digit_of (c : ascii) : option nat :=
  let n := nat_of_ascii c in
  if (48 <=? n)%nat && (n <=? 57)%nat then Some (n - 48)%nat else None.

Definition number2 (a b : ascii) : option nat :=
  match digit_of a, digit_of b with
  | Some x, Some y => Some (10 * x + y)%nat
  | _, _ => None
  end.

Definition is_leap (y : nat) : bool :=
  (y mod 4 =? 0)%nat && (negb (y mod 100 =? 0)%nat || (y mod 400 =? 0)%nat).

Definition days_in_month (y m : nat) : nat :=
  match m with
  | 1 | 3 | 5 | 7 | 8 | 10 | 12 => 31
  | 4 | 6 | 9 | 11 => 30
  | 2 => if is_leap y then 29 else 28
  | _ => 0
  end%nat.

(** [YYYY-MM-DD], a day of the calendar within the range of a [Timestamp]. *)
Definition iso_date (y1 y2 y3 y4 d1 m1 m2 d2 a1 a2 : ascii) : bool :=
  match number2 y1 y2, number2 y3 y4, number2 m1 m2, number2 a1 a2 with
  | Some yh, Some yl, Some m, Some d =>
      let y := (100 * yh + yl)%nat in
      Ascii.eqb d1 "-" && Ascii.eqb d2 "-"
      && (1678 <=? y)%nat && (y <=? 2261)%nat
      && (1 <=? d)%nat && (d <=? days_in_month y m)%nat
  | _, _, _, _ => false
  end.

(** Nothing, or [THH:MM:SS] with an optional [Z]. *)
Definition iso_time (s : string) : bool :=
  match s with
  | EmptyString => true
  | String t (String h1 (String h2 (String c1 (String m1 (String m2
      (String c2 (String s1 (String s2 tz)))))))) =>
      match number2 h1 h2, number2 m1 m2, number2 s1 s2 with
      | Some h, Some m, Some sec =>
          (Ascii.eqb t "T" || Ascii.eqb t " ")
          && Ascii.eqb c1 ":" && Ascii.eqb c2 ":"
          && (h <=? 23)%nat && (m <=? 59)%nat && (sec <=? 59)%nat
          && (String.eqb tz "" || String.eqb tz "Z")
      | _, _, _ => false
      end
  | _ => false
  end.

(** The ISO 8601 strings pandas parses without consulting dateutil. *)
Definition iso8601 (s : string) : bool :=
  match s with
  | String y1 (String y2 (String y3 (String y4 (String d1 (String m1 (String m2
      (String d2 (String a1 (String a2 rest))))))))) =>
      iso_date y1 y2 y3 y4 d1 m1 m2 d2 a1 a2 && iso_time rest
  | _ => false
  end.

(** [str(x)] *)
Definition py_str `{PandasLib} (v : value) : string :=
  match v with
  | VStr s => s
  | VNone => "None"
  | VNaN => "nan"
  | VBool true => "True"
  | VBool false => "False"
  | VInt z => NilZero.string_of_int (Z.to_int z)
  | _ => lib_repr v
  end.

(** [pd.to_datetime(x, errors="coerce")] followed by [isnull]. *)
Definition to_datetime_isnull `{PandasLib} (v : value) : bool :=
  match v with
  | VNone | VNaN => true
  | VStr s =>
      if String.eqb s "" then true
      else if iso8601 s then false
      else lib_to_datetime_isnull v
  | _ => lib_to_datetime_isnull v
  end.

(** [pd.to_numeric(x, errors="coerce")] followed by [isnull]. *)
Definition to_numeric_isnull `{PandasLib} (v : value) : bool :=
  match v with
  | VNone | VNaN => true
  | VBool _ | VInt _ => false
  | _ => lib_to_numeric_isnull v
  end.

(** [v in [True, False, 1, 0]] *)
Definition isin_boolean (v : value) : bool :=
  match v with
  | VBool _ => true
  | VInt z => (z =? 1)%Z || (z =? 0)%Z
  | _ => false
  end.

(** An instance that parses nothing beyond what the model fixes. *)
Definition strict_lib : PandasLib := {|
  lib_to_datetime_isnull := fun _ => true;
  lib_to_numeric_isnull := fun _ => true;
  lib_repr := fun _ => "[...]"
|}.

(* ================================================================== *)
(** * data_validator.py *)

(** [except Exception as e: ...; sys.exit(1)] around a [try] body. *)
Definition exit_on_exception {A : Type} (body : result A) : result A :=
  match body with
  | Ok a => Ok a
  | Raise e => if is_Exception e then Raise (SystemExit 1) else Raise e
  end.

(** The [try] body of [check_empty_or_null_and_raise].  The test for empty
    strings is guarded by [dtype == 'object'] in the source; a column of
    another dtype holds no string, so the guard does not change the
    outcome. *)
Definition check_empty_or_null_try (df : DataFrame) (column_name : string)
  : result unit :=
  if negb (has_column df column_name) then Raise (KeyError [column_name])
  else
    s <- series df column_name ;;
    let is_null := existsb isnull s in
    let is_empty := existsb is_empty_str s in
    if is_null || is_empty
    then Raise (PrimaryKeyViolationException column_name NullOrEmpty)
    else Ok tt.

Definition check_empty_or_null_and_raise (df : DataFrame) (column_name : string)
  : result unit :=
  exit_on_exception (check_empty_or_null_try df column_name).

(** The [try] body of [check_duplicates_and_raise]. *)
Definition check_duplicates_try (df : DataFrame) (column_name : string)
  : result unit :=
  if negb (has_column df column_name) then Raise (KeyError [column_name])
  else
    s <- series df column_name ;;
    duplicates <- any_duplicated s ;;
    if duplicates
    then Raise (PrimaryKeyViolationException column_name Duplicates)
    else Ok tt.

Definition check_duplicates_and_raise (df : DataFrame) (column_name : string)
  : result unit :=
  exit_on_exception (check_duplicates_try df column_name).

(* ================================================================== *)
(** * data_quality.py *)

(** The checks receive the caller's frame; [M] threads it, also through a
    raise, since an assignment made before the raise stays. *)
Definition M (A : Type) : Type := DataFrame -> DataFrame * result A.

Definition ret {A : Type} (a : A) : M A := fun df => (df, Ok a).
Definition raise {A : Type} (e : exn) : M A := fun df => (df, Raise e).
Definition lift {A : Type} (r : result A) : M A := fun df => (df, r).
Definition get_frame : M DataFrame := fun df => (df, Ok df).
Definition put_frame (df' : DataFrame) : M unit := fun _ => (df', Ok tt).

Definition mbind {A B : Type} (m : M A) (k : A -> M B) : M B :=
  fun df => match m df with
            | (df', Ok a) => k a df'
            | (df', Raise e) => (df', Raise e)
            end.

Declare Scope frame_scope.
Delimit Scope frame_scope with frame.
Notation "x <~ m ;; k" := (mbind m (fun x => k))
  (at level 61, m at next level, right associativity) : frame_scope.
Notation "m ;;; k" := (mbind m (fun _ => k))
  (at level 61, right associativity) : frame_scope.

Fixpoint for_each {A : Type} (body : A -> M unit) (l : list A) : M unit :=
  match l with
  | [] => ret tt
  | x :: xs => (body x ;;; for_each body xs)%frame
  end.

Definition when (b : bool) (m : M unit) : M unit := if b then m else ret tt.

Section DataQuality.
Context `{PandasLib}.

Definition validate_date_column (column_name : string) : M unit :=
  (df <~ get_frame ;;
   if negb (has_column df column_name) then raise (KeyError [column_name])
   else
     s <~ lift (series df column_name) ;;
     let invalid_dates := map to_datetime_isnull s in
     if existsb (fun b => b) invalid_dates
     then raise (ValueError (InvalidDates column_name))
     else ret tt)%frame.

Definition str_len (x : value) : Z := Z.of_nat (String.length (py_str x)).

Definition validate_id_column (column_name : string) (max_length : Z) : M unit :=
  (df <~ get_frame ;;
   if negb (has_column df column_name) then raise (KeyError [column_name])
   else
     s <~ lift (series df column_name) ;;
     let null_or_empty := map (fun v => isnull v || is_empty_str v) s in
     if existsb (fun b => b) null_or_empty
     then raise (ValueError (NullOrEmptyId column_name))
     else
       let invalid_length := map (fun x => (str_len x >? max_length)%Z) s in
       if existsb (fun b => b) invalid_length
       then raise (ValueError (ExceedsLength column_name max_length))
       else
         let invalid_length := map (fun x => (str_len x <? max_length)%Z) s in
         if existsb (fun b => b) invalid_length
         then raise (ValueError (BelowLength column_name max_length))
         else ret tt)%frame.

Definition validate_column_types (column_name expected_type : string) : M unit :=
  (df <~ get_frame ;;
   if negb (has_column df column_name) then raise (KeyError [column_name])
   else if String.eqb expected_type "float" then
     s <~ lift (series df column_name) ;;
     put_frame (set_series df column_name (fillna0 s)) ;;;
     df <~ get_frame ;;
     s <~ lift (series df column_name) ;;
     if negb (forallb (fun v => negb (to_numeric_isnull v)) s)
     then raise (ValueError (NonFloat column_name))
     else ret tt
   else if String.eqb expected_type "boolean" then
     s <~ lift (series df column_name) ;;
     if negb (forallb isin_boolean s)
     then raise (ValueError (NonBoolean column_name))
     else ret tt
   else if String.eqb expected_type "varchar" then
     ret tt                               (* a warning is logged *)
   else ret tt)%frame.

(** ** The schema table of [column_mappings.yml] *)

Record column_def : Type := {
  cd_name : string;
  cd_type : string;
  cd_length : option Z                    (* the optional key ["length"] *)
}.

Definition lower_ascii (c : ascii) : ascii :=
  let n := nat_of_ascii c in
  if (65 <=? n)%nat && (n <=? 90)%nat then ascii_of_nat (n + 32) else c.

(** [s.lower()] *)
Fixpoint lower (s : string) : string :=
  match s with
  | EmptyString => EmptyString
  | String c s' => String (lower_ascii c) (lower s')
  end.

(** [needle in s] *)
Fixpoint contains (needle s : string) : bool :=
  String.prefix needle s
  || match s with
     | EmptyString => false
     | String _ s' => contains needle s'
     end.

Fixpoint lookup {A : Type} (k : string) (l : list (string * A)) : option A :=
  match l with
  | [] => None
  | (k', a) :: l' => if String.eqb k k' then Some a else lookup k l'
  end.

Definition check_column (column_def : column_def) : M unit :=
  let column_name := cd_name column_def in
  let column_type := lower (cd_type column_def) in
  (when (contains "date" column_type) (validate_date_column column_name) ;;;
   when (String.eqb column_type "varchar")
     (match cd_length column_def with
      | Some length => validate_id_column column_name length
      | None => ret tt
      end) ;;;
   when (String.eqb column_type "float" || String.eqb column_type "boolean")
     (validate_column_types column_name column_type))%frame.

Definition check_data_quality_dataframe
  (schema_definitions : list (string * list column_def)) (table_name : string)
  : M unit :=
  match lookup table_name schema_definitions with
  | None | Some [] => raise (ValueError (NoSchema table_name))
  | Some schema => for_each check_column schema
  end.

End DataQuality.

(* ================================================================== *)
(** * transformation.py *)

(** One entry of [column_mappings]: the optional ["rename"] table and the
    ["select"] text once evaluated ([None] when the text is empty). *)
Record mapping_spec : Type := {
  ms_rename : list (string * string);
  ms_select : option (list string)
}.

Record Config : Type := {
  column_mappings : list (string * mapping_spec);
  schema_definitions : list (string * list column_def)
}.

Definition mapping_of (cfg : Config) (case : string) : result mapping_spec :=
  match lookup case (column_mappings cfg) with
  | Some ms => Ok ms
  | None => Raise (KeyError [case])
  end.

Definition rename_columns (cfg : Config) (df : DataFrame) (case : string)
  : result DataFrame :=
  ms <- mapping_of cfg case ;;
  match ms_rename ms with
  | [] => Ok df
  | mappings => Ok (rename df mappings)
  end.

(** The set [keys]: the union of the key sets of the items. *)
Definition all_keys (items : list value) : list string :=
  uniq (flat_map (fun d => match d with
                           | VDict d => dict_keys d
                           | _ => []
                           end) items).

(** The nested function of [process_dict_columns]. *)
Definition extract_values : value -> result value := fun value =>
  match value with
  | VList items =>
      if forallb is_dict items then
        let keys := all_keys items in
        match keys with
        | [key] =>
            vs <- map_result (fun item => py_getitem item key) items ;;
            Ok (VList vs)
        | _ => Ok value
        end
      else Ok value
  | _ => Ok value
  end.

Fixpoint process_dict_columns (df : DataFrame) (column_names : list string)
  : result DataFrame :=
  match column_names with
  | [] => Ok df
  | column_name :: rest =>
      if has_column df column_name then
        s <- series df column_name ;;
        s' <- map_result extract_values s ;;
        process_dict_columns (set_series df column_name s') rest
      else Raise (KeyError [column_name])
  end.

(** [select_columns = ...["select"]; if select_columns: x_df = df[eval(...)]]:
    the local stays unbound when the text is empty. *)
Definition select_stage (cfg : Config) (df : DataFrame) (case : string)
  : result (option DataFrame) :=
  ms <- mapping_of cfg case ;;
  match ms_select ms with
  | Some select_columns =>
      selected <- getitem_columns df select_columns ;; Ok (Some selected)
  | None => Ok None
  end.

Section Transformation.
Context `{PandasLib}.

(** The body of the [try] the four pipelines share, on the selected frame. *)
Definition checks (cfg : Config) (id_column table_name : string) : M unit :=
  (df <~ get_frame ;;
   lift (check_empty_or_null_and_raise df id_column) ;;;
   lift (check_duplicates_and_raise df id_column) ;;;
   check_data_quality_dataframe (schema_definitions cfg) table_name)%frame.

(** [try: ... except SystemExit as e: print(...)] and [return x_df]. *)
Definition checked (cfg : Config) (local_name : string) (x_df : option DataFrame)
  (id_column table_name : string) : result DataFrame :=
  match x_df with
  | None => Raise (UnboundLocalError local_name)
  | Some df =>
      match checks cfg id_column table_name df with
      | (df', Ok _) => Ok df'
      | (df', Raise (SystemExit _)) => Ok df'
      | (_, Raise e) => Raise e
      end
  end.

Definition transform_clients (cfg : Config) (data : list record) : result DataFrame :=
  let df := json_normalize data in
  df <- rename_columns cfg df "clients" ;;
  df <- process_dict_columns df ["suppliers"; "sonar_dates"] ;;
  client_df <- select_stage cfg df "clients" ;;
  checked cfg "client_df" client_df "client_id" "clients".

(** [lambda x: x['$oid'] if isinstance(x, dict) and '$oid' in x else None] *)
Definition flatten_oid (x : value) : value :=
  match x with
  | VDict d => match dict_get "$oid" d with
               | Some v => v
               | None => VNone
               end
  | _ => VNone
  end.

(** The two inner loops of [transform_supplier_group] for one row. *)
Definition expand_suppliers (client_id : value) (group_name : string)
  (suppliers : value) : result (list record) :=
  items <- py_iter suppliers ;;
  map_result (fun supplier =>
                supplier_id <- py_getitem supplier "$oid" ;;
                Ok [("client_id", client_id);
                    ("group_name", VStr group_name);
                    ("supplier_id", supplier_id)]) items.

Definition expand_row (client_id supplier_groups : value) : result (list record) :=
  if truthy supplier_groups then
    match supplier_groups with
    | VDict groups =>
        flat_map_result (fun g => expand_suppliers client_id (fst g) (snd g)) groups
    | _ => Raise AttributeError           (* no [items] method *)
    end
  else Ok [].

Definition transform_supplier_group (cfg : Config) (data : list record)
  : result DataFrame :=
  let df := from_records data in
  df <- rename_columns cfg df "supplier_group" ;;
  pairs <- getitem_columns df ["client_id"; "supplier_groups"] ;;
  new_rows <- flat_map_result (fun row => expand_row (cell 0 row) (cell 1 row))
                (rows pairs) ;;
  let df := from_records new_rows in
  client_id <- series df "client_id" ;;
  Ok (set_series df "client_id" (map flatten_oid client_id)).

Definition transform_suppliers (cfg : Config) (data : list record) : result DataFrame :=
  let df := json_normalize data in
  df <- rename_columns cfg df "suppliers" ;;
  supplier_df <- select_stage cfg df "suppliers" ;;
  checked cfg "supplier_df" supplier_df "supplier_id" "suppliers".

(** [lambda x: [item["$oid"] for item in x] if isinstance(x, list) else []] *)
Definition oid_list (x : value) : result value :=
  match x with
  | VList items =>
      vs <- map_result (fun item => py_getitem item "$oid") items ;; Ok (VList vs)
  | _ => Ok (VList [])
  end.

Definition apply_oid_list (df : DataFrame) (column_name : string) : result DataFrame :=
  s <- series df column_name ;;
  s' <- map_result oid_list s ;;
  Ok (set_series df column_name s').

Definition transform_sonar_runs (cfg : Config) (data : list record) : result DataFrame :=
  let df := json_normalize data in
  df <- apply_oid_list df "supplier_ids" ;;
  df <- apply_oid_list df "client_part_ids" ;;
  df <- rename_columns cfg df "sonar_runs" ;;
  sonar_run_df <- select_stage cfg df "sonar_runs" ;;
  checked cfg "sonar_run_df" sonar_run_df "sonar_run_id" "sonar_runs".

Definition transform_sonar_results (cfg : Config) (data : list record)
  : result DataFrame :=
  let df := json_normalize data in
  df <- rename_columns cfg df "sonar_results" ;;
  sonar_result_df <- select_stage cfg df "sonar_results" ;;
  checked cfg "sonar_result_df" sonar_result_df "sonar_result_id" "sonar_results".

Definition known_cases : list string :=
  ["clients"; "supplier_group"; "suppliers"; "sonar_runs"; "sonar_results"].

(** [TransformationFactory.transform(data, case)] *)
Definition transform (cfg : Config) (data : list record) (case : string)
  : result DataFrame :=
  if String.eqb case "clients" then transform_clients cfg data
  else if String.eqb case "supplier_group" then transform_supplier_group cfg data
  else if String.eqb case "suppliers" then transform_suppliers cfg data
  else if String.eqb case "sonar_runs" then transform_sonar_runs cfg data
  else if String.eqb case "sonar_results" then transform_sonar_results cfg data
  else Raise (ValueError (UnknownCase case)).

End Transformation.

(* ================================================================== *)
(** * load_data.py and the task body of the DAG *)

(** The sink: the rows each table holds. *)
Definition sink : Type := list (string * DataFrame).

Fixpoint replace_all_rows (table_name : string) (df : DataFrame) (db : sink) : sink :=
  match db with
  | [] => [(table_name, df)]
  | (t, old) :: db' =>
      if String.eqb table_name t then (t, df) :: db'
      else (t, old) :: replace_all_rows table_name df db'
  end.

(** [Loader.validate_and_insert_data]: the required columns are checked, the
    table is truncated, the frame is appended.  Errors of the database
    itself are outside the model. *)
Definition validate_and_insert_data (db : sink) (df : DataFrame)
  (table_name : string) (required_columns : list string) : sink * result unit :=
  let missing_columns :=
    filter (fun col => negb (has_column df col)) required_columns in
  match missing_columns with
  | [] => (replace_all_rows table_name df db, Ok tt)
  | _ => (db, Raise (ValueError (MissingColumns table_name missing_columns)))
  end.

(** [run_etl] from the point where the Extractor has returned [data]:
    transform, then load; [except Exception as e: raise RuntimeError(...)]. *)
Definition run_etl `{PandasLib} (cfg : Config)
  (output_column_names : list (string * list string))
  (data : list record) (collection_name : string) (db : sink)
  : sink * result unit :=
  let wrap := fun e => if is_Exception e then RuntimeError collection_name e else e in
  match transform cfg data collection_name with
  | Raise e => (db, Raise (wrap e))
  | Ok transformed_df =>
      match lookup collection_name output_column_names with
      | None => (db, Raise (wrap (KeyError [collection_name])))
      | Some required_columns =>
          match validate_and_insert_data db transformed_df collection_name
                  required_columns with
          | (db', Ok u) => (db', Ok u)
          | (db', Raise e) => (db', Raise (wrap e))
          end
      end
  end.

(* ================================================================== *)
(** * extract_data.py *)

(** What [open] and [json.load] find under a path: a JSON array of objects,
    or text that is not JSON.  A path the table lacks is a missing file. *)
Inductive file_content : Type :=
| Json (data : list record)
| NotJson.

Definition file_system : Type := list (string * file_content).

(** The exceptions of the Extractor.  Three of them are [ValueError]s, told
    apart by their message; [Propagated] carries an exception of pandas. *)
Inductive extract_exn : Type :=
| FileNotFoundError (source : string)
| JSONDecodeError (source : string)
| InvalidJsonFormat (source : string)
| InvalidSourceType
| MissingRequiredColumns (missing : list string)
| NotImplementedError
| Propagated (e : exn).

Inductive extracted (A : Type) : Type :=
| Extracted (a : A)
| ExtractRaise (e : extract_exn).

Arguments Extracted {A} a.
Arguments ExtractRaise {A} e.

Definition ebind {A B : Type} (r : extracted A) (k : A -> extracted B)
  : extracted B :=
  match r with Extracted a => k a | ExtractRaise e => ExtractRaise e end.

Definition _read_from_file (fs : file_system) (source : string)
  : extracted (list record) :=
  match lookup source fs with
  | Some (Json data) => Extracted data
  | Some NotJson => ExtractRaise (JSONDecodeError source)
  | None => ExtractRaise (FileNotFoundError source)
  end.

Definition _read_from_mongo (source : string) : extracted (list record) :=
  ExtractRaise NotImplementedError.

Definition _validate_schema (df : DataFrame) (schema_definition : list string)
  : extracted unit :=
  let missing_columns :=
    filter (fun col => negb (has_column df col)) schema_definition in
  match missing_columns with
  | [] => Extracted tt
  | _ => ExtractRaise (MissingRequiredColumns missing_columns)
  end.

(** [Extractor.read_data]: the frame is built and filtered only to be
    checked; what is returned is [data].  Of the [except] clauses only the
    one for [json.JSONDecodeError] changes the exception. *)
Definition read_data (fs : file_system) (source_type source : string)
  (schema_definition : list string) : extracted (list record) :=
  let body :=
    ebind (if String.eqb source_type "file" then _read_from_file fs source
           else if String.eqb source_type "mongo" then _read_from_mongo source
           else ExtractRaise InvalidSourceType)
      (fun data =>
         let df := from_records data in
         ebind (_validate_schema df schema_definition)
           (fun _ =>
              match getitem_columns df schema_definition with
              | Ok _ => Extracted data
              | Raise e => ExtractRaise (Propagated e)
              end)) in
  match body with
  | ExtractRaise (JSONDecodeError _) => ExtractRaise (InvalidJsonFormat source)
  | r => r
  end.

(* ================================================================== *)
(** * Shapes the statements speak of *)

(** Every row has one cell per column. *)
Definition wf_frame (df : DataFrame) : Prop :=
  Forall (fun row => List.length row = List.length (columns df)) (rows df).

(** Some record of the set carries the key [c]. *)
Definition some_record_has (recs : list record) (c : string) : bool :=
  existsb (fun r => mem c (dict_keys r)) recs.

(** A mapping whose only key is [key], and the value it holds. *)
Definition single_key (key : string) (item : value) : bool :=
  match item with
  | VDict [(k, _)] => String.eqb k key
  | _ => false
  end.

Definition sole_value (item : value) : value :=
  match item with
  | VDict [(_, x)] => x
  | _ => VNone
  end.

(** A well-shaped document of the supplier groups: a wrapped client id and
    the groups, each a list of wrapped member ids; the records the loops
    append for it, and the rows the transform returns for it. *)
Definition wrap_oid (x : value) : value := VDict [("$oid", x)].

Definition supplier_group_doc (client_id : value)
  (groups : list (string * list value)) : record :=
  [("client_id", wrap_oid client_id);
   ("supplier_groups",
    VDict (map (fun g => (fst g, VList (map wrap_oid (snd g)))) groups))].

Definition appended (client_id : value) (groups : list (string * list value))
  : list record :=
  flat_map (fun g => map (fun m => [("client_id", wrap_oid client_id);
                                    ("group_name", VStr (fst g));
                                    ("supplier_id", m)]) (snd g)) groups.

Definition triples (client_id : value) (groups : list (string * list value))
  : list (list value) :=
  flat_map (fun g => map (fun m => [client_id; VStr (fst g); m]) (snd g)) groups.

(** The name a column has after [rename]. *)
Definition renamed (mappings : list (string * string)) (c : string) : string :=
  match assoc c mappings with Some c' => c' | None => c end.

(** The columns of the supplier-group table. *)
Definition group_columns : list string := ["client_id"; "group_name"; "supplier_id"].

(* ================================================================== *)
(** * A configuration for the examples *)

Definition clients_columns : list string :=
  ["client_id"; "name"; "contract_start_date"; "contract_end_date";
   "sonar_dates"; "suppliers"].

Definition suppliers_columns : list string :=
  ["supplier_id"; "name"; "country"; "page_status"; "login";
   "automatic_priority"; "alias"; "date"; "priority"; "currency"].

(** Modelled from the spec: [column_mappings.yml] is not among the sources.
    The renamings and selections are those that turn the inputs of
    [test_etl.py] into its expected frames; the schemas give a [ColumnSpec]
    (name, type, optional length) to the columns the checks look at. *)
Definition test_config : Config := {|
  column_mappings :=
    [("clients",
      {| ms_rename := [("_id.$oid", "client_id");
                       ("contract_start.$date", "contract_start_date");
                       ("contract_end.$date", "contract_end_date")];
         ms_select := Some clients_columns |});
     ("supplier_group", {| ms_rename := []; ms_select := None |});
     ("suppliers",
      {| ms_rename := [("_id.$oid", "supplier_id")];
         ms_select := Some suppliers_columns |})];
  schema_definitions :=
    [("clients",
      [{| cd_name := "client_id"; cd_type := "VARCHAR"; cd_length := Some 24%Z |};
       {| cd_name := "name"; cd_type := "VARCHAR"; cd_length := None |};
       {| cd_name := "contract_start_date"; cd_type := "DATE"; cd_length := None |};
       {| cd_name := "contract_end_date"; cd_type := "DATE"; cd_length := None |}]);
     ("suppliers",
      [{| cd_name := "supplier_id"; cd_type := "VARCHAR"; cd_length := Some 24%Z |};
       {| cd_name := "login"; cd_type := "BOOLEAN"; cd_length := None |};
       {| cd_name := "priority"; cd_type := "FLOAT"; cd_length := None |};
       {| cd_name := "date"; cd_type := "DATE"; cd_length := None |}])]
|}.

(** A configuration whose suppliers and sonar results have no column list. *)
Definition config_without_select : Config := {|
  column_mappings :=
    [("suppliers", {| ms_rename := [("_id.$oid", "supplier_id")]; ms_select := None |});
     ("sonar_results",
      {| ms_rename := [("_id.$oid", "sonar_result_id")]; ms_select := None |})];
  schema_definitions := []
|}.

(** The supplier of [test_etl.py], with a null [priority]. *)
Definition supplier_without_priority : list record :=
  [[("_id.$oid", VStr "6086c347701bfd9e246ae133");
    ("name", VStr "Supplier A");
    ("country", VStr "USA");
    ("page_status", VStr "Active");
    ("login", VBool true);
    ("automatic_priority", VInt 1);
    ("alias", VStr "SupA");
    ("date", VStr "2023-01-01");
    ("priority", VNone);
    ("currency", VStr "USD")]].

Definition supplier_row (priority : value) : list value :=
  [VStr "6086c347701bfd9e246ae133"; VStr "Supplier A"; VStr "USA";
   VStr "Active"; VBool true; VInt 1; VStr "SupA"; VStr "2023-01-01";
   priority; VStr "USD"].

(** Two suppliers; the second document has no [_id.$oid]. *)
Definition suppliers_second_without_id : list record :=
  [[("_id.$oid", VStr "6086c347701bfd9e246ae133");
    ("name", VStr "Supplier A");
    ("country", VStr "USA");
    ("page_status", VStr "Active");
    ("login", VBool true);
    ("automatic_priority", VInt 1);
    ("alias", VStr "SupA");
    ("date", VStr "2023-01-01");
    ("priority", VInt 2);
    ("currency", VStr "USD")];
   [("name", VStr "Supplier B");
    ("country", VStr "USA");
    ("page_status", VStr "Active");
    ("login", VBool true);
    ("automatic_priority", VInt 1);
    ("alias", VStr "SupB");
    ("date", VStr "2023-01-01");
    ("priority", VInt 2);
    ("currency", VStr "USD")]].

(** The supplier of [test_etl.py] with an identifier of five characters. *)
Definition supplier_with_short_id : list record :=
  [[("_id.$oid", VStr "6086c");
    ("name", VStr "Supplier A");
    ("country", VStr "USA");
    ("page_status", VStr "Active");
    ("login", VBool true);
    ("automatic_priority", VInt 1);
    ("alias", VStr "SupA");
    ("date", VStr "2023-01-01");
    ("priority", VInt 2);
    ("currency", VStr "USD")]].

(** The two clients of [test_etl.py]: both carry the same [_id.$oid]. *)
Definition clients_input : list record :=
  [[("_id.$oid", VStr "6086c347701bfd9e246ae133");
    ("name", VStr "John Doe");
    ("contract_start.$date", VStr "2023-01-01");
    ("contract_end.$date", VStr "2023-12-31");
    ("sonar_dates", VList [VStr "2023-02-01"; VStr "2023-05-01"]);
    ("suppliers", VList [VStr "Supplier1"; VStr "Supplier2"])];
   [("_id.$oid", VStr "6086c347701bfd9e246ae133");
    ("name", VStr "Jane Smith");
    ("contract_start.$date", VStr "2023-02-01");
    ("contract_end.$date", VStr "2023-11-30");
    ("sonar_dates", VList [VStr "2023-03-01"; VStr "2023-06-01"]);
    ("suppliers", VList [VStr "Supplier3"])]].

Definition clients_expected : DataFrame :=
  mkDF clients_columns
    [[VStr "6086c347701bfd9e246ae133"; VStr "John Doe";
      VStr "2023-01-01"; VStr "2023-12-31";
      VList [VStr "2023-02-01"; VStr "2023-05-01"];
      VList [VStr "Supplier1"; VStr "Supplier2"]];
     [VStr "6086c347701bfd9e246ae133"; VStr "Jane Smith";
      VStr "2023-02-01"; VStr "2023-11-30";
      VList [VStr "2023-03-01"; VStr "2023-06-01"];
      VList [VStr "Supplier3"]]].

(* ================================================================== *)
(** * Properties *)

(** ** Lists of names *)

Lemma mem_In (x : string) (l : list string) : mem x l = true <-> In x l.
Proof.
  unfold mem. rewrite existsb_exists. split.
  - intros [y [Hy Heq]]. apply String.eqb_eq in Heq. now subst.
  - intros Hin. exists x. split; [assumption | apply String.eqb_refl].
Qed.

Lemma mem_false (x : string) (l : list string) : mem x l = false <-> ~ In x l.
Proof.
  rewrite <- mem_In. destruct (mem x l); split; congruence.
Qed.

Lemma uniq_from_In (l seen : list string) (x : string) :
  In x (uniq_from seen l) <-> In x l /\ ~ In x seen.
Proof.
  revert seen. induction l as [| y ys IH]; intros seen; simpl.
  - tauto.
  - destruct (mem y seen) eqn:Hy.
    + apply mem_In in Hy. rewrite IH. split.
      * intros [H1 H2]. tauto.
      * intros [[-> | H1] H2]; tauto.
    + apply mem_false in Hy. simpl. rewrite IH. simpl. split.
      * intros [-> | [H1 H2]]; [tauto |]. split; [tauto |]. intros H3. apply H2. tauto.
      * intros [[-> | H1] H2]; [tauto |].
        destruct (string_dec y x) as [-> | Hne]; [tauto |]. right. split; [assumption |].
        intros [H3 | H3]; tauto.
Qed.

Lemma uniq_In (l : list string) (x : string) : In x (uniq l) <-> In x l.
Proof. unfold uniq. rewrite uniq_from_In. simpl. tauto. Qed.

Lemma index_of_Some (c : string) (cs : list string) (i : nat) :
  index_of c cs = Some i -> (i < List.length cs)%nat /\ nth i cs "" = c.
Proof.
  revert i. induction cs as [| c' cs IH]; intros i; simpl; [discriminate |].
  destruct (String.eqb c c') eqn:Heq.
  - intros [= <-]. apply String.eqb_eq in Heq. split; [lia | now subst].
  - destruct (index_of c cs) as [j |]; simpl; [| discriminate].
    intros [= <-]. destruct (IH j eq_refl) as [H1 H2]. split; [lia | assumption].
Qed.

Lemma index_of_mem (c : string) (cs : list string) :
  mem c cs = true -> exists i, index_of c cs = Some i.
Proof.
  induction cs as [| c' cs IH]; simpl; [discriminate |].
  destruct (String.eqb c c'); simpl.
  - intros _. now exists 0%nat.
  - intros Hm. destruct (IH Hm) as [i ->]. now exists (S i).
Qed.

Lemma index_of_None (c : string) (cs : list string) :
  mem c cs = false -> index_of c cs = None.
Proof.
  induction cs as [| c' cs IH]; simpl; [reflexivity |].
  destruct (String.eqb c c'); simpl; [discriminate |].
  intros Hm. now rewrite (IH Hm).
Qed.

(** ** Frames built from records *)

Lemma has_column_from_records (recs : list record) (c : string) :
  has_column (from_records recs) c = some_record_has recs c.
Proof.
  unfold has_column, some_record_has. simpl.
  apply Bool.eq_iff_eq_true. rewrite mem_In, uniq_In, in_flat_map, existsb_exists.
  split; intros [r [Hr Hc]]; exists r; split; try assumption; now apply mem_In.
Qed.

Lemma cell_of_record (r : record) (cs : list string) (c : string) (i : nat) :
  index_of c cs = Some i -> cell i (map (get_or_nan r) cs) = get_or_nan r c.
Proof.
  intros Hi. destruct (index_of_Some _ _ _ Hi) as [Hlt Hnth].
  unfold cell. rewrite (nth_indep _ VNaN (get_or_nan r "")).
  - now rewrite map_nth, Hnth.
  - now rewrite length_map.
Qed.

(** ** Column selection *)

Lemma missing_columns_from_records (recs : list record) (cols : list string) :
  missing_columns (from_records recs) cols
  = filter (fun c => negb (some_record_has recs c)) cols.
Proof.
  unfold missing_columns. apply filter_ext. intros c.
  now rewrite has_column_from_records.
Qed.

Lemma project_record (r : record) (cs cols : list string) :
  (forall c, In c cols -> mem c cs = true) ->
  map (fun i => cell i (map (get_or_nan r) cs))
      (map (fun c => match index_of c cs with Some i => i | None => O end) cols)
  = map (get_or_nan r) cols.
Proof.
  intros Hall. rewrite map_map. apply map_ext_in. intros c Hc.
  destruct (index_of_mem c cs (Hall c Hc)) as [i Hi]. rewrite Hi.
  now apply cell_of_record.
Qed.

Lemma filter_nil_forall {A : Type} (p : A -> bool) (l : list A) :
  filter p l = [] -> forall x, In x l -> p x = false.
Proof.
  induction l as [| y ys IH]; simpl; [tauto |].
  destruct (p y) eqn:Hy; [discriminate |].
  intros Hf x [<- | Hx]; [assumption | now apply IH].
Qed.

Lemma getitem_columns_from_records (recs : list record) (cols : list string) :
  getitem_columns (from_records recs) cols
  = match filter (fun c => negb (some_record_has recs c)) cols with
    | [] => Ok (mkDF cols (map (fun r => map (get_or_nan r) cols) recs))
    | missing => Raise (KeyError missing)
    end.
Proof.
  unfold getitem_columns. rewrite missing_columns_from_records.
  destruct (filter (fun c => negb (some_record_has recs c)) cols) eqn:Hf;
    [| reflexivity].
  f_equal. f_equal. cbn [rows columns from_records].
  rewrite map_map. apply map_ext. intros r.
  apply project_record. intros c Hc.
  pose proof (filter_nil_forall _ _ Hf c Hc) as Hn. apply negb_false_iff in Hn.
  rewrite <- has_column_from_records in Hn. exact Hn.
Qed.

(** C3, as the code has it.  Selecting the columns [cols] from the frame of a
    record set either gives, for every record and in the order of [cols],
    exactly the cells under those names (a missing cell where the record
    lacks the key), or raises one [KeyError] that names every column of
    [cols] that no record of the set carries.  A column absent from some
    records only does not make the selection fail. *)
Theorem select_columns_batch (recs : list record) (cols : list string) :
  getitem_columns (from_records recs) cols
  = match filter (fun c => negb (some_record_has recs c)) cols with
    | [] => Ok (mkDF cols (map (fun r => map (get_or_nan r) cols) recs))
    | missing => Raise (KeyError missing)
    end.
Proof. apply getitem_columns_from_records. Qed.

(** C3, counterexample.  The column [supplier_id] is absent from the second
    record; the selection succeeds and gives that record a missing cell.
    The same happens inside [transform_suppliers]: the second document has
    no [_id.$oid], the selection goes through and the transform returns both
    rows. *)
Lemma select_columns_absent_in_one_record :
  mem "supplier_id" (dict_keys [("name", VStr "B")]) = false
  /\ getitem_columns
       (from_records [[("supplier_id", VStr "s1"); ("name", VStr "A")];
                      [("name", VStr "B")]])
       ["supplier_id"; "name"]
     = Ok (mkDF ["supplier_id"; "name"]
             [[VStr "s1"; VStr "A"]; [VNaN; VStr "B"]])
  /\ transform_suppliers (H := strict_lib) test_config suppliers_second_without_id
     = Ok (mkDF suppliers_columns
             [supplier_row (VInt 2);
              [VNaN; VStr "Supplier B"; VStr "USA"; VStr "Active"; VBool true;
               VInt 1; VStr "SupB"; VStr "2023-01-01"; VInt 2; VStr "USD"]]).
Proof. repeat split; reflexivity. Qed.

(** ** Dictionaries *)

Lemma dict_get_Some_In (k : string) (d : record) (x : value) :
  dict_get k d = Some x -> In (k, x) d.
Proof.
  induction d as [| [k' v] d IH]; simpl; [discriminate |].
  destruct (String.eqb k k') eqn:Heq.
  - intros [= ->]. apply String.eqb_eq in Heq. subst. now left.
  - intros Hg. right. now apply IH.
Qed.

Lemma dict_get_keys (k : string) (d : record) :
  In k (dict_keys d) <-> exists x, dict_get k d = Some x.
Proof.
  induction d as [| [k' v] d IH]; simpl.
  - split; [tauto | intros [x Hx]; discriminate].
  - destruct (String.eqb k k') eqn:Heq.
    + apply String.eqb_eq in Heq. subst. split; [intros _; now exists v | now left].
    + apply String.eqb_neq in Heq. rewrite <- IH. split; [| tauto].
      intros [Hk | Hk]; [congruence | assumption].
Qed.

(** ** The [$oid] wrapper *)

(** C7, as the code has it.  [flatten_oid] returns the value found under
    ["$oid"] for every mapping that has that key, whatever other keys the
    mapping carries, and [None] for every value that is not a mapping with
    that key; a mapping whose only key is ["$oid"] gives the wrapped value. *)
Theorem flatten_oid_cases (v : value) :
  (forall x, flatten_oid (VDict [("$oid", x)]) = x)
  /\ ((exists d x, v = VDict d /\ In "$oid" (dict_keys d)
                   /\ In ("$oid", x) d /\ flatten_oid v = x)
      \/ ((forall d, v = VDict d -> ~ In "$oid" (dict_keys d))
          /\ flatten_oid v = VNone)).
Proof.
  split; [reflexivity |].
  destruct v; try (right; split; [discriminate | reflexivity]).
  simpl. destruct (dict_get "$oid" d) as [x |] eqn:Hg.
  - left. exists d, x. repeat split.
    + apply dict_get_keys. now exists x.
    + now apply dict_get_Some_In.
  - right. split; [| reflexivity]. intros d' [= <-] Hin.
    apply dict_get_keys in Hin. destruct Hin as [x Hx]. congruence.
Qed.

(** C7, counterexample.  A mapping that holds ["$oid"] next to another key is
    not mapped to [None]: the value under ["$oid"] comes back. *)
Lemma flatten_oid_extra_key :
  flatten_oid (VDict [("$oid", VStr "C1"); ("extra", VInt 1)]) = VStr "C1"
  /\ flatten_oid (VDict [("$oid", VStr "C1"); ("extra", VInt 1)]) <> VNone.
Proof. split; [reflexivity | discriminate]. Qed.

(** ** Dispatch *)

Section Dispatch.
Context `{PandasLib}.

(** C8.  A collection name outside the five known ones makes [transform]
    raise the unknown-case error ([ValueError] in the source) carrying that
    name; each of the five names runs the pipeline of its collection. *)
Theorem transform_dispatch (cfg : Config) (data : list record) (case : string)
  (Hunknown : ~ In case known_cases) :
  transform cfg data case = Raise (ValueError (UnknownCase case))
  /\ transform cfg data "clients" = transform_clients cfg data
  /\ transform cfg data "supplier_group" = transform_supplier_group cfg data
  /\ transform cfg data "suppliers" = transform_suppliers cfg data
  /\ transform cfg data "sonar_runs" = transform_sonar_runs cfg data
  /\ transform cfg data "sonar_results" = transform_sonar_results cfg data.
Proof.
  split; [| repeat split; reflexivity].
  unfold transform.
  repeat match goal with
         | |- context [String.eqb case ?k] =>
             destruct (String.eqb_spec case k) as [-> | _];
             [exfalso; apply Hunknown; simpl; tauto |]
         end.
  reflexivity.
Qed.

End Dispatch.

(** ** Flattening lists of single-key mappings *)

Lemma forallb_is_dict_scalar (l : list value) :
  l <> [] -> forallb is_scalar l = true -> forallb is_dict l = false.
Proof.
  destruct l as [| x l]; [congruence |]. simpl. intros _ Hs.
  apply andb_true_iff in Hs. destruct Hs as [Hx _].
  destruct x; simpl in *; congruence.
Qed.

(** C9.  A list of scalars is a fixed point of [extract_values], so
    flattening a field a second time returns what the first pass returned. *)
Theorem extract_values_idempotent (l : list value)
  (Hscalars : forallb is_scalar l = true) :
  extract_values (VList l) = Ok (VList l)
  /\ forall v, extract_values v = Ok (VList l) ->
               (v' <- extract_values v ;; extract_values v') = Ok (VList l).
Proof.
  assert (Hfix : extract_values (VList l) = Ok (VList l)).
  { destruct l as [| x l]; [reflexivity |].
    unfold extract_values.
    now rewrite (forallb_is_dict_scalar (x :: l)) by (congruence || assumption). }
  split; [exact Hfix |].
  intros v Hv. rewrite Hv. simpl. exact Hfix.
Qed.

Lemma uniq_from_seen (seen l : list string) :
  (forall x, In x l -> In x seen) -> uniq_from seen l = [].
Proof.
  induction l as [| x l IH]; intros Hall; simpl; [reflexivity |].
  assert (Hx : mem x seen = true) by (apply mem_In, Hall; now left).
  rewrite Hx. apply IH. intros y Hy. apply Hall. now right.
Qed.

Lemma single_key_inv (key : string) (item : value) :
  single_key key item = true -> exists x, item = VDict [(key, x)].
Proof.
  destruct item as [| | | | | | d]; simpl; try discriminate.
  destruct d as [| [k x] [| ? ?]]; try discriminate.
  intros Hk. apply String.eqb_eq in Hk. subst. now exists x.
Qed.

Lemma single_key_keys (key : string) (items : list value) :
  forallb (single_key key) items = true ->
  forall k, In k (flat_map (fun d => match d with
                                      | VDict d => dict_keys d
                                      | _ => []
                                      end) items) -> k = key.
Proof.
  induction items as [| item items IH]; simpl; [tauto |].
  intros Hall k Hk. apply andb_true_iff in Hall. destruct Hall as [H1 H2].
  apply in_app_or in Hk. destruct Hk as [Hk | Hk]; [| now apply IH].
  destruct (single_key_inv _ _ H1) as [x ->]. simpl in Hk.
  destruct Hk as [<- | []]. reflexivity.
Qed.

Lemma single_key_values (key : string) (items : list value) :
  forallb (single_key key) items = true ->
  map_result (fun item => py_getitem item key) items = Ok (map sole_value items).
Proof.
  induction items as [| item items IH]; simpl; [reflexivity |].
  intros Hall. apply andb_true_iff in Hall. destruct Hall as [H1 H2].
  destruct (single_key_inv _ _ H1) as [x ->]. simpl.
  rewrite String.eqb_refl. simpl. now rewrite (IH H2).
Qed.

(** X21.  The good case of C5: a non-empty list of mappings that all have the one
    key [key] becomes the list of the values under it, in order. *)
Lemma extract_values_flattens (key : string) (items : list value) :
  items <> [] -> forallb (single_key key) items = true ->
  extract_values (VList items) = Ok (VList (map sole_value items)).
Proof.
  intros Hne Hall. unfold extract_values.
  assert (Hdict : forallb is_dict items = true).
  { apply forallb_forall. intros item Hin.
    rewrite forallb_forall in Hall.
    destruct (single_key_inv _ _ (Hall item Hin)) as [x ->]. reflexivity. }
  assert (Hkeys : all_keys items = [key]).
  { destruct items as [| item items]; [congruence |].
    pose proof (single_key_keys key _ Hall) as Hk.
    simpl in Hall. apply andb_true_iff in Hall. destruct Hall as [H1 H2].
    destruct (single_key_inv _ _ H1) as [x ->].
    unfold all_keys, uniq. simpl. f_equal. apply uniq_from_seen.
    intros k Hin. left. symmetry. apply Hk. simpl. now right. }
  rewrite Hdict, Hkeys, (single_key_values key items Hall). reflexivity.
Qed.

(** X22.  The pass-through cases of C5: a value that is not a list, the empty list,
    a list with an element that is not a mapping, and a list of mappings
    whose keys, taken together, are not exactly one. *)
Lemma extract_values_passes_through (v : value) :
  (forall items, v <> VList items)
  \/ v = VList []
  \/ (exists items, v = VList items /\ forallb is_dict items = false)
  \/ (exists items, v = VList items /\ List.length (all_keys items) <> 1%nat) ->
  extract_values v = Ok v.
Proof.
  intros [Hnl | [-> | [[items [-> Hd]] | [items [-> Hk]]]]].
  - destruct v; try reflexivity. now destruct (Hnl l).
  - reflexivity.
  - unfold extract_values. now rewrite Hd.
  - unfold extract_values. destruct (forallb is_dict items); [| reflexivity].
    destruct (all_keys items) as [| k [| k' ks]]; simpl in *; congruence.
Qed.

(** The last part of C5: a name that is not a column raises [KeyError]. *)
Lemma process_dict_columns_missing (df : DataFrame) (c : string) (rest : list string) :
  has_column df c = false ->
  process_dict_columns df (c :: rest) = Raise (KeyError [c]).
Proof. intros Hc. simpl. now rewrite Hc. Qed.

(** C5, where the code leaves the claim.  The second mapping has no key, so
    the list is not one of mappings that share a key and the claim lets it
    pass unchanged; the keys taken together are still one key, the
    comprehension looks it up in every mapping, and the call ends in a
    [KeyError] for ["$oid"], in [extract_values] and so in
    [process_dict_columns]. *)
Theorem extract_values_keyless_mapping :
  forallb (single_key "$oid") [VDict [("$oid", VStr "101")]; VDict []] = false
  /\ extract_values (VList [VDict [("$oid", VStr "101")]; VDict []])
     = Raise (KeyError ["$oid"])
  /\ process_dict_columns
       (from_records [[("suppliers", VList [VDict [("$oid", VStr "101")]; VDict []])]])
       ["suppliers"]
     = Raise (KeyError ["$oid"]).
Proof. repeat split; reflexivity. Qed.

(** ** Reading and assigning a column *)

Lemma series_has_column (df : DataFrame) (c : string) (s : list value) :
  series df c = Ok s -> has_column df c = true.
Proof.
  unfold series, has_column. destruct (index_of c (columns df)) eqn:Hi; [| discriminate].
  intros _. destruct (mem c (columns df)) eqn:Hm; [reflexivity |].
  apply index_of_None in Hm. congruence.
Qed.

Lemma has_column_series (df : DataFrame) (c : string) :
  has_column df c = true -> exists s, series df c = Ok s.
Proof.
  unfold has_column, series. intros Hc.
  destruct (index_of_mem _ _ Hc) as [i ->]. now eexists.
Qed.

Lemma series_length (df : DataFrame) (c : string) (s : list value) :
  series df c = Ok s -> List.length s = List.length (rows df).
Proof.
  unfold series. destruct (index_of c (columns df)); [| discriminate].
  intros [= <-]. apply length_map.
Qed.

Lemma cell_set_nth_same (i : nat) (v : value) (row : list value) :
  (i < List.length row)%nat -> cell i (set_nth i v row) = v.
Proof.
  unfold cell. revert i. induction row as [| x row IH]; intros i; simpl; [lia |].
  destruct i; simpl; [reflexivity |]. intros Hlt. apply IH. lia.
Qed.

Lemma cell_set_nth_other (i j : nat) (v : value) (row : list value) :
  i <> j -> cell j (set_nth i v row) = cell j row.
Proof.
  unfold cell. revert i j. induction row as [| x row IH]; intros i j Hne.
  - now destruct i.
  - destruct i, j; simpl; try reflexivity; try congruence.
    apply IH. congruence.
Qed.

Lemma set_cells_same (i : nat) (rws : list (list value)) (s : list value) :
  Forall (fun row => (i < List.length row)%nat) rws ->
  List.length s = List.length rws ->
  map (cell i) (map (fun rv => set_nth i (snd rv) (fst rv)) (combine rws s)) = s.
Proof.
  intros Hall. revert s. induction Hall as [| row rws Hrow Hall IH]; intros s Hlen.
  - destruct s; [reflexivity | discriminate].
  - destruct s as [| v s]; [discriminate |]. simpl.
    rewrite cell_set_nth_same by assumption. f_equal. apply IH.
    simpl in Hlen. lia.
Qed.

Lemma set_cells_other (i j : nat) (rws : list (list value)) (s : list value) :
  i <> j -> List.length s = List.length rws ->
  map (cell j) (map (fun rv => set_nth i (snd rv) (fst rv)) (combine rws s))
  = map (cell j) rws.
Proof.
  intros Hne. revert s. induction rws as [| row rws IH]; intros s Hlen.
  - reflexivity.
  - destruct s as [| v s]; [discriminate |]. simpl.
    rewrite cell_set_nth_other by assumption. f_equal. apply IH.
    simpl in Hlen. lia.
Qed.

Lemma index_of_inj (c c' : string) (cs : list string) (i : nat) :
  index_of c cs = Some i -> index_of c' cs = Some i -> c = c'.
Proof.
  intros H1 H2. apply index_of_Some in H1, H2.
  destruct H1 as [_ H1], H2 as [_ H2]. congruence.
Qed.

Lemma columns_set_series (df : DataFrame) (c : string) (s : list value) :
  columns (set_series df c s) = columns df.
Proof. unfold set_series. now destruct (index_of c (columns df)). Qed.

Lemma series_set_series (df : DataFrame) (c : string) (s s' : list value) :
  wf_frame df -> series df c = Ok s -> List.length s' = List.length (rows df) ->
  series (set_series df c s') c = Ok s'.
Proof.
  unfold wf_frame, series, set_series. intros Hwf Hs Hlen.
  destruct (index_of c (columns df)) as [i |] eqn:Hi; [| discriminate].
  simpl. rewrite Hi. f_equal. apply set_cells_same; [| assumption].
  apply index_of_Some in Hi. destruct Hi as [Hlt _].
  eapply Forall_impl; [| exact Hwf]. simpl. intros row Hrow. lia.
Qed.

Lemma series_set_series_other (df : DataFrame) (c c' : string) (s' : list value) :
  c' <> c -> List.length s' = List.length (rows df) ->
  series (set_series df c s') c' = series df c'.
Proof.
  unfold series, set_series. intros Hne Hlen.
  destruct (index_of c (columns df)) as [i |] eqn:Hi; [| reflexivity].
  simpl. destruct (index_of c' (columns df)) as [j |] eqn:Hj; [| reflexivity].
  f_equal. apply set_cells_other; [| assumption].
  intros ->. apply Hne. symmetry. eapply index_of_inj; eassumption.
Qed.

Lemma existsb_id_map {A : Type} (f : A -> bool) (l : list A) :
  existsb (fun b => b) (map f l) = existsb f l.
Proof. induction l as [| x l IH]; simpl; [reflexivity | now rewrite IH]. Qed.

Lemma existsb_false {A : Type} (f : A -> bool) (l : list A) :
  existsb f l = false -> forall x, In x l -> f x = false.
Proof.
  intros Hf x Hin. destruct (f x) eqn:Hx; [| reflexivity].
  rewrite <- Hf. symmetry. apply existsb_exists. now exists x.
Qed.

Lemma fillna0_length (s : list value) : List.length (fillna0 s) = List.length s.
Proof. apply length_map. Qed.

Lemma fillna0_fixed (s : list value) : fillna0 s = s -> existsb isnull s = false.
Proof.
  induction s as [| v s IH]; simpl; [reflexivity |].
  intros [= Hv Hs]. rewrite (IH Hs).
  destruct v; simpl in *; try reflexivity; discriminate.
Qed.

(** ** The quality checks *)

Section QualityChecks.
Context `{PandasLib}.

Lemma validate_date_column_run (df : DataFrame) (c : string) (s : list value) :
  series df c = Ok s ->
  validate_date_column c df
  = (df, if existsb to_datetime_isnull s
         then Raise (ValueError (InvalidDates c)) else Ok tt).
Proof.
  intros Hs. unfold validate_date_column, mbind, get_frame, lift, raise, ret.
  rewrite (series_has_column _ _ _ Hs), Hs. simpl.
  rewrite existsb_id_map. now destruct (existsb to_datetime_isnull s).
Qed.

Lemma validate_id_column_run (df : DataFrame) (c : string) (n : Z) (s : list value) :
  series df c = Ok s ->
  validate_id_column c n df
  = (df, if existsb (fun v => isnull v || is_empty_str v) s
         then Raise (ValueError (NullOrEmptyId c))
         else if existsb (fun x => (str_len x >? n)%Z) s
         then Raise (ValueError (ExceedsLength c n))
         else if existsb (fun x => (str_len x <? n)%Z) s
         then Raise (ValueError (BelowLength c n))
         else Ok tt).
Proof.
  intros Hs. unfold validate_id_column, mbind, get_frame, lift, raise, ret.
  rewrite (series_has_column _ _ _ Hs), Hs. simpl.
  rewrite !existsb_id_map.
  destruct (existsb (fun v => isnull v || is_empty_str v) s); [reflexivity |].
  destruct (existsb (fun x => (str_len x >? n)%Z) s); [reflexivity |].
  now destruct (existsb (fun x => (str_len x <? n)%Z) s).
Qed.

Lemma validate_column_types_float_run (df : DataFrame) (c : string) (s : list value) :
  wf_frame df -> series df c = Ok s ->
  validate_column_types c "float" df
  = (set_series df c (fillna0 s),
     if forallb (fun v => negb (to_numeric_isnull v)) (fillna0 s)
     then Ok tt else Raise (ValueError (NonFloat c))).
Proof.
  intros Hwf Hs.
  unfold validate_column_types, mbind, get_frame, put_frame, lift, raise, ret.
  rewrite (series_has_column _ _ _ Hs), Hs. simpl.
  rewrite (series_set_series df c s (fillna0 s) Hwf Hs)
    by (rewrite fillna0_length; eapply series_length; eassumption).
  now destruct (forallb (fun v => negb (to_numeric_isnull v)) (fillna0 s)).
Qed.

Lemma validate_date_column_frame (df : DataFrame) (c : string) :
  fst (validate_date_column c df) = df.
Proof.
  unfold validate_date_column, mbind, get_frame, lift, raise, ret.
  destruct (has_column df c); simpl; [| reflexivity].
  destruct (series df c) as [s |]; [| reflexivity].
  now destruct (existsb (fun b => b) (map to_datetime_isnull s)).
Qed.

Lemma validate_id_column_frame (df : DataFrame) (c : string) (n : Z) :
  fst (validate_id_column c n df) = df.
Proof.
  unfold validate_id_column, mbind, get_frame, lift, raise, ret.
  destruct (has_column df c); simpl; [| reflexivity].
  destruct (series df c) as [s |]; [| reflexivity].
  repeat match goal with
         | |- context [if existsb ?f ?l then _ else _] => destruct (existsb f l)
         end; reflexivity.
Qed.

Lemma validate_column_types_frame (df : DataFrame) (c ty : string) :
  ty <> "float" -> fst (validate_column_types c ty df) = df.
Proof.
  intros Hty.
  unfold validate_column_types, mbind, get_frame, put_frame, lift, raise, ret.
  destruct (has_column df c); simpl; [| reflexivity].
  destruct (String.eqb_spec ty "float") as [-> | _]; [congruence |].
  destruct (String.eqb ty "boolean").
  - destruct (series df c) as [s |]; [| reflexivity].
    now destruct (forallb isin_boolean s).
  - now destruct (String.eqb ty "varchar").
Qed.

(** C4.  On a column of the table, [validate_id_column] raises when a value
    is null or the empty string, raises when some value has a string of
    length [n + 1] or of length [n - 1], and accepts exactly when every
    value is non-null, non-empty and has a string of length [n]. *)
Theorem validate_id_column_exact_length (df : DataFrame) (c : string) (n : Z)
  (s : list value) (Hs : series df c = Ok s) :
  (existsb (fun v => isnull v || is_empty_str v) s = true ->
   validate_id_column c n df = (df, Raise (ValueError (NullOrEmptyId c))))
  /\ (forall v, In v s -> str_len v = (n + 1)%Z \/ str_len v = (n - 1)%Z ->
      exists e, validate_id_column c n df = (df, Raise (ValueError e)))
  /\ (validate_id_column c n df = (df, Ok tt) <->
      forall v, In v s ->
        isnull v = false /\ is_empty_str v = false /\ str_len v = n).
Proof.
  rewrite (validate_id_column_run df c n s Hs).
  destruct (existsb (fun v => isnull v || is_empty_str v) s) eqn:Hnull.
  { split; [reflexivity |]. split; [intros; now eexists |].
    split; [discriminate |]. intros Hall.
    apply existsb_exists in Hnull. destruct Hnull as [v [Hin Hv]].
    destruct (Hall v Hin) as [H1 [H2 _]]. rewrite H1, H2 in Hv. discriminate. }
  split; [discriminate |].
  destruct (existsb (fun x => (str_len x >? n)%Z) s) eqn:Hgt.
  { split; [intros; now eexists |]. split; [discriminate |]. intros Hall.
    apply existsb_exists in Hgt. destruct Hgt as [v [Hin Hv]].
    destruct (Hall v Hin) as [_ [_ H3]]. lia. }
  destruct (existsb (fun x => (str_len x <? n)%Z) s) eqn:Hlt.
  { split; [intros; now eexists |]. split; [discriminate |]. intros Hall.
    apply existsb_exists in Hlt. destruct Hlt as [v [Hin Hv]].
    destruct (Hall v Hin) as [_ [_ H3]]. lia. }
  assert (Hok : forall v, In v s ->
            isnull v = false /\ is_empty_str v = false /\ str_len v = n).
  { intros v Hin.
    pose proof (existsb_false _ _ Hnull v Hin) as E1.
    pose proof (existsb_false _ _ Hgt v Hin) as E2.
    pose proof (existsb_false _ _ Hlt v Hin) as E3.
    simpl in E1, E2, E3.
    apply orb_false_iff in E1. destruct E1 as [E1 E1'].
    repeat split; try assumption. lia. }
  split.
  - intros v Hin Hlen. destruct (Hok v Hin) as [_ [_ H3]]. lia.
  - split; [intros _; exact Hok | reflexivity].
Qed.

(** A column the table lacks is refused as well, with a [KeyError]. *)
Lemma validate_id_column_missing (df : DataFrame) (c : string) (n : Z) :
  has_column df c = false ->
  validate_id_column c n df = (df, Raise (KeyError [c])).
Proof.
  intros Hc. unfold validate_id_column, mbind, get_frame, raise.
  now rewrite Hc.
Qed.

End QualityChecks.

Section DatesAndFloats.
Context `{PandasLib}.

Lemma null_is_invalid_date (v : value) :
  isnull v = true \/ is_empty_str v = true -> to_datetime_isnull v = true.
Proof.
  destruct v; simpl; intros [Hv | Hv]; try discriminate; try reflexivity.
  now rewrite Hv.
Qed.

(** C6.  On a column of the table, [validate_date_column] accepts exactly
    when [pd.to_datetime] turns every value into a timestamp, and raises the
    invalid-date error ([ValueError] in the source) naming the column
    otherwise; a null or empty value is never a timestamp, so it makes the
    check fail.  A column holding ["2023-01-01"] and
    ["2023-01-01T12:00:00Z"] is accepted; one holding ["not-a-date"], which
    dateutil does not parse, is rejected. *)
Theorem validate_date_column_parses (df : DataFrame) (c : string) (s : list value)
  (Hs : series df c = Ok s)
  (Hdateutil : lib_to_datetime_isnull (VStr "not-a-date") = true) :
  (validate_date_column c df = (df, Ok tt) <->
   forall v, In v s -> to_datetime_isnull v = false)
  /\ ((exists v, In v s /\ to_datetime_isnull v = true) ->
      validate_date_column c df = (df, Raise (ValueError (InvalidDates c))))
  /\ ((exists v, In v s /\ (isnull v = true \/ is_empty_str v = true)) ->
      validate_date_column c df = (df, Raise (ValueError (InvalidDates c))))
  /\ snd (validate_date_column "date"
            (mkDF ["date"] [[VStr "2023-01-01"]; [VStr "2023-01-01T12:00:00Z"]]))
     = Ok tt
  /\ snd (validate_date_column "date" (mkDF ["date"] [[VStr "not-a-date"]]))
     = Raise (ValueError (InvalidDates "date")).
Proof.
  rewrite (validate_date_column_run df c s Hs).
  assert (Hbad : (exists v, In v s /\ to_datetime_isnull v = true) ->
                 existsb to_datetime_isnull s = true).
  { intros [v [Hin Hv]]. apply existsb_exists. now exists v. }
  repeat split.
  - destruct (existsb to_datetime_isnull s) eqn:He; [discriminate |].
    intros _. now apply existsb_false.
  - intros Hall. destruct (existsb to_datetime_isnull s) eqn:He; [| reflexivity].
    apply existsb_exists in He. destruct He as [v [Hin Hv]].
    rewrite (Hall v Hin) in Hv. discriminate.
  - intros Hex. now rewrite (Hbad Hex).
  - intros [v [Hin Hv]]. rewrite Hbad; [reflexivity |].
    exists v. split; [assumption | now apply null_is_invalid_date].
  - rewrite (validate_date_column_run (mkDF ["date"] [[VStr "not-a-date"]])
               "date" [VStr "not-a-date"] eq_refl).
    simpl. now rewrite Hdateutil.
Qed.

(** A column the table lacks is refused with a [KeyError]. *)
Lemma validate_date_column_missing (df : DataFrame) (c : string) :
  has_column df c = false ->
  validate_date_column c df = (df, Raise (KeyError [c])).
Proof.
  intros Hc. unfold validate_date_column, mbind, get_frame, raise.
  now rewrite Hc.
Qed.

(** C10.  The float check assigns to the frame it is given: afterwards its
    column holds 0 wherever it held a null, the other columns are as they
    were, and the frame differs from the one that entered as soon as the
    column had a null; [transform_suppliers] returns that frame, so what is
    handed on differs from what was selected.  The date check, the id check
    and the type check for any other type, boolean and varchar among them,
    return the frame they were given. *)
Theorem float_check_fills_nulls (df : DataFrame) (c : string) (s : list value)
  (Hwf : wf_frame df) (Hs : series df c = Ok s) :
  let df' := fst (validate_column_types c "float" df) in
  series df' c = Ok (fillna0 s)
  /\ columns df' = columns df
  /\ (forall c', c' <> c -> series df' c' = series df c')
  /\ (existsb isnull s = true -> df' <> df)
  /\ (select_stage test_config
        (rename (json_normalize supplier_without_priority) [("_id.$oid", "supplier_id")])
        "suppliers"
      = Ok (Some (mkDF suppliers_columns [supplier_row VNone]))
      /\ transform_suppliers test_config supplier_without_priority
         = Ok (mkDF suppliers_columns [supplier_row (VInt 0)]))
  /\ (forall c', fst (validate_date_column c' df) = df)
  /\ (forall c' n, fst (validate_id_column c' n df) = df)
  /\ fst (validate_column_types c "boolean" df) = df
  /\ fst (validate_column_types c "varchar" df) = df.
Proof.
  cbv zeta. rewrite (validate_column_types_float_run df c s Hwf Hs). simpl fst.
  assert (Hlen : List.length (fillna0 s) = List.length (rows df)).
  { rewrite fillna0_length. eapply series_length; eassumption. }
  split; [now apply (series_set_series df c s) |].
  split; [apply columns_set_series |].
  split; [intros c' Hne; now apply series_set_series_other |].
  split.
  { intros Hnull Heq.
    pose proof (series_set_series df c s (fillna0 s) Hwf Hs Hlen) as Hnew.
    rewrite Heq, Hs in Hnew. injection Hnew as Hfix.
    symmetry in Hfix. apply fillna0_fixed in Hfix. congruence. }
  split; [split; reflexivity |].
  split; [intros; apply validate_date_column_frame |].
  split; [intros; apply validate_id_column_frame |].
  split; apply validate_column_types_frame; discriminate.
Qed.

End DatesAndFloats.

(** ** Duplicated keys *)

Lemma key_eqb_refl (v : value) : is_scalar v = true -> key_eqb v v = true.
Proof.
  destruct v; simpl; try discriminate; intros _; try reflexivity.
  - now destruct b.
  - apply Z.eqb_refl.
  - apply String.eqb_refl.
Qed.

Lemma has_dup_seen (s seen : list value) (j : nat) (v : value) :
  In v seen -> is_scalar v = true -> nth_error s j = Some v ->
  has_dup_from seen s = true.
Proof.
  revert seen j. induction s as [| x s IH]; intros seen j Hin Hv Hj.
  - now destruct j.
  - simpl. destruct j as [| j]; simpl in Hj.
    + injection Hj as ->. apply orb_true_iff. left.
      apply existsb_exists. exists v. split; [assumption | now apply key_eqb_refl].
    + apply orb_true_iff. right. apply (IH (x :: seen) j); simpl; auto.
Qed.

Lemma has_dup_positions (s seen : list value) (i j : nat) (v : value) :
  (i < j)%nat -> nth_error s i = Some v -> nth_error s j = Some v ->
  is_scalar v = true -> has_dup_from seen s = true.
Proof.
  revert seen i j. induction s as [| x s IH]; intros seen i j Hlt Hi Hj Hv.
  - now destruct i.
  - simpl. apply orb_true_iff. right.
    destruct j as [| j]; [lia |]. simpl in Hj.
    destruct i as [| i]; simpl in Hi.
    + injection Hi as ->. apply (has_dup_seen s (v :: seen) j v); simpl; auto.
    + apply (IH (x :: seen) i j); auto. lia.
Qed.

Lemma check_duplicates_exits (df : DataFrame) (c : string) (s : list value)
  (i j : nat) (v : value) :
  series df c = Ok s ->
  (i < j)%nat -> nth_error s i = Some v -> nth_error s j = Some v ->
  check_duplicates_and_raise df c = Raise (SystemExit 1)
  /\ (forallb is_scalar s = true ->
      check_duplicates_try df c
      = Raise (PrimaryKeyViolationException c Duplicates)).
Proof.
  intros Hs Hlt Hi Hj.
  unfold check_duplicates_and_raise, check_duplicates_try, any_duplicated.
  rewrite (series_has_column _ _ _ Hs), Hs. simpl.
  destruct (forallb is_scalar s) eqn:Hall; simpl; [| split; [reflexivity | discriminate]].
  assert (Hv : is_scalar v = true).
  { rewrite forallb_forall in Hall. apply Hall. eapply nth_error_In; eassumption. }
  rewrite (has_dup_positions s [] i j v Hlt Hi Hj Hv). simpl. split; reflexivity.
Qed.

Lemma check_empty_or_null_outcome (df : DataFrame) (c : string) :
  check_empty_or_null_and_raise df c = Ok tt
  \/ check_empty_or_null_and_raise df c = Raise (SystemExit 1).
Proof.
  unfold check_empty_or_null_and_raise, check_empty_or_null_try.
  destruct (has_column df c) eqn:Hc; simpl; [| now right].
  destruct (has_column_series _ _ Hc) as [s ->]. simpl.
  destruct (existsb isnull s || existsb is_empty_str s); simpl; auto.
Qed.

(** ** The clients pipeline *)

Section Clients.
Context `{PandasLib}.

Lemma checked_when_duplicates_exit (cfg : Config) (local_name : string)
  (df : DataFrame) (id_column table_name : string) :
  check_duplicates_and_raise df id_column = Raise (SystemExit 1) ->
  checked cfg local_name (Some df) id_column table_name = Ok df.
Proof.
  intros Hdup. unfold checked, checks, mbind, get_frame, lift.
  destruct (check_empty_or_null_outcome df id_column) as [-> | ->];
    [now rewrite Hdup | reflexivity].
Qed.

Lemma filter_all_false {A : Type} (p : A -> bool) (l : list A) :
  (forall x, In x l -> p x = false) -> filter p l = [].
Proof.
  induction l as [| x l IH]; intros Hall; simpl; [reflexivity |].
  rewrite (Hall x) by now left. apply IH. intros y Hy. apply Hall. now right.
Qed.

(** C1, as the code has it.  When the table selected for the clients has the
    same value of [client_id] in two rows, the duplicate check raises the
    primary-key violation inside its own [try], turns it into a request to
    exit ([SystemExit] with code 1), and [transform_clients] catches that
    request: the quality checks that follow are skipped, the transform
    returns the selected table as it is, and [run_etl] loads it into the
    sink. *)
Theorem clients_duplicates_pass (cfg : Config) (data : list record)
  (df1 df2 client_df : DataFrame) (s : list value) (i j : nat) (v : value)
  (Hrename : rename_columns cfg (json_normalize data) "clients" = Ok df1)
  (Hflatten : process_dict_columns df1 ["suppliers"; "sonar_dates"] = Ok df2)
  (Hselect : select_stage cfg df2 "clients" = Ok (Some client_df))
  (Hs : series client_df "client_id" = Ok s)
  (Hlt : (i < j)%nat)
  (Hi : nth_error s i = Some v) (Hj : nth_error s j = Some v) :
  (forallb is_scalar s = true ->
   check_duplicates_try client_df "client_id"
   = Raise (PrimaryKeyViolationException "client_id" Duplicates))
  /\ check_duplicates_and_raise client_df "client_id" = Raise (SystemExit 1)
  /\ transform_clients cfg data = Ok client_df
  /\ transform cfg data "clients" = Ok client_df
  /\ forall (output_column_names : list (string * list string))
            (required_columns : list string) (db : sink),
       lookup "clients" output_column_names = Some required_columns ->
       (forall c, In c required_columns -> has_column client_df c = true) ->
       run_etl cfg output_column_names data "clients" db
       = (replace_all_rows "clients" client_df db, Ok tt).
Proof.
  destruct (check_duplicates_exits client_df "client_id" s i j v Hs Hlt Hi Hj)
    as [Hexit Htry].
  assert (Ht : transform_clients cfg data = Ok client_df).
  { unfold transform_clients. rewrite Hrename. cbn [bind].
    rewrite Hflatten. cbn [bind]. rewrite Hselect. cbn [bind].
    now apply checked_when_duplicates_exit. }
  repeat split; try assumption.
  intros out required db Hout Hcols.
  unfold run_etl, transform. simpl. rewrite Ht, Hout.
  unfold validate_and_insert_data. rewrite filter_all_false; [reflexivity |].
  intros c Hc. now rewrite (Hcols c Hc).
Qed.

End Clients.

(** C1, counterexample.  The two clients of [test_etl.py] have the same
    [client_id]; the transform does not fail, it returns the frame the test
    expects, with both rows, and [run_etl] writes it to the sink. *)
Lemma clients_duplicates_reach_loader :
  series clients_expected "client_id"
  = Ok [VStr "6086c347701bfd9e246ae133"; VStr "6086c347701bfd9e246ae133"]
  /\ transform (H := strict_lib) test_config clients_input "clients"
     = Ok clients_expected
  /\ run_etl (H := strict_lib) test_config [("clients", clients_columns)]
       clients_input "clients" []
     = ([("clients", clients_expected)], Ok tt).
Proof. repeat split; reflexivity. Qed.

(** ** The supplier groups *)

Lemma map_result_ok {A B : Type} (f : A -> result B) (g : A -> B) (l : list A) :
  (forall x, In x l -> f x = Ok (g x)) -> map_result f l = Ok (map g l).
Proof.
  induction l as [| x l IH]; intros Hall; simpl; [reflexivity |].
  rewrite (Hall x) by now left. simpl.
  rewrite IH by (intros y Hy; apply Hall; now right). reflexivity.
Qed.

Lemma flat_map_result_ok {A B : Type} (f : A -> result (list B))
  (g : A -> list B) (l : list A) :
  (forall x, In x l -> f x = Ok (g x)) -> flat_map_result f l = Ok (flat_map g l).
Proof.
  intros Hall. unfold flat_map_result. rewrite (map_result_ok f g l Hall).
  simpl. now rewrite flat_map_concat_map.
Qed.

Lemma expand_suppliers_members (client_id : value) (group_name : string)
  (members : list value) :
  expand_suppliers client_id group_name (VList (map wrap_oid members))
  = Ok (map (fun m => [("client_id", client_id);
                       ("group_name", VStr group_name);
                       ("supplier_id", m)]) members).
Proof.
  unfold expand_suppliers. simpl. rewrite map_result_ok with
    (g := fun w => [("client_id", client_id); ("group_name", VStr group_name);
                    ("supplier_id", sole_value w)]).
  - now rewrite map_map.
  - intros w Hw. apply in_map_iff in Hw. destruct Hw as [m [<- _]]. reflexivity.
Qed.

Lemma expand_row_doc (client_id : value) (groups : list (string * list value)) :
  expand_row (wrap_oid client_id)
    (VDict (map (fun g => (fst g, VList (map wrap_oid (snd g)))) groups))
  = Ok (appended client_id groups).
Proof.
  destruct groups as [| g groups]; [reflexivity |].
  unfold expand_row. cbn [truthy map].
  change ((fst g, VList (map wrap_oid (snd g)))
          :: map (fun g0 => (fst g0, VList (map wrap_oid (snd g0)))) groups)
    with (map (fun g0 => (fst g0, VList (map wrap_oid (snd g0)))) (g :: groups)).
  rewrite flat_map_result_ok with
    (g := fun kv => map (fun m => [("client_id", wrap_oid client_id);
                                   ("group_name", VStr (fst kv));
                                   ("supplier_id", sole_value m)])
                        (match snd kv with VList l => l | _ => [] end)).
  - unfold appended. rewrite !flat_map_concat_map, map_map.
    apply (f_equal Ok), (f_equal (@List.concat record)).
    apply map_ext. intros [name members]. simpl. now rewrite map_map.
  - intros kv Hkv. apply in_map_iff in Hkv. destruct Hkv as [[name members] [<- _]].
    simpl. rewrite expand_suppliers_members. now rewrite map_map.
Qed.

Lemma uniq_from_app_fresh (ks seen l : list string) :
  NoDup ks -> (forall x, In x ks -> ~ In x seen) ->
  uniq_from seen (ks ++ l)%list = (ks ++ uniq_from (rev ks ++ seen) l)%list.
Proof.
  revert seen. induction ks as [| k ks IH]; intros seen Hnd Hfresh; [reflexivity |].
  inversion Hnd as [| ? ? Hk Hnd']; subst. simpl.
  assert (Hm : mem k seen = false) by (apply mem_false, Hfresh; now left).
  rewrite Hm. f_equal. rewrite IH; [now rewrite <- app_assoc | assumption |].
  intros x Hx [<- | Hin]; [contradiction |].
  apply (Hfresh x); [now right | assumption].
Qed.

Lemma uniform_columns (ks : list string) (recs : list record) :
  recs <> [] -> NoDup ks -> (forall r, In r recs -> dict_keys r = ks) ->
  uniq (flat_map dict_keys recs) = ks.
Proof.
  intros Hne Hnd Hall. destruct recs as [| r rs]; [congruence |].
  unfold uniq. simpl. rewrite (Hall r) by now left.
  rewrite uniq_from_app_fresh by (assumption || (intros x _ []) ).
  rewrite uniq_from_seen; [apply app_nil_r |].
  intros x Hx. apply in_flat_map in Hx. destruct Hx as [r' [Hr' Hx]].
  rewrite (Hall r') in Hx by now right.
  apply in_or_app. left. now apply in_rev in Hx.
Qed.

Lemma get_all_keys (r : record) :
  NoDup (dict_keys r) -> map (get_or_nan r) (dict_keys r) = map snd r.
Proof.
  induction r as [| [k v] r IH]; intros Hnd; [reflexivity |].
  simpl in Hnd. inversion Hnd as [| ? ? Hk Hnd']; subst. simpl.
  unfold get_or_nan at 1. simpl. rewrite String.eqb_refl. f_equal.
  rewrite <- (IH Hnd'). apply map_ext_in. intros k' Hk'.
  unfold get_or_nan. simpl.
  destruct (String.eqb_spec k' k) as [-> | _]; [contradiction | reflexivity].
Qed.

Lemma from_records_uniform (ks : list string) (recs : list record) :
  recs <> [] -> NoDup ks -> (forall r, In r recs -> dict_keys r = ks) ->
  from_records recs = mkDF ks (map (map snd) recs).
Proof.
  intros Hne Hnd Hall. unfold from_records.
  rewrite (uniform_columns ks recs Hne Hnd Hall). f_equal.
  apply map_ext_in. intros r Hr. rewrite <- (Hall r Hr).
  apply get_all_keys. now rewrite (Hall r Hr).
Qed.

Lemma flat_map_result_map {A B C : Type} (f : B -> result (list C)) (h : A -> B)
  (g : A -> list C) (l : list A) :
  (forall x, In x l -> f (h x) = Ok (g x)) ->
  flat_map_result f (map h l) = Ok (flat_map g l).
Proof.
  intros Hall. unfold flat_map_result.
  rewrite map_result_ok with (g := fun y => match f y with Ok ys => ys | Raise _ => [] end).
  - simpl. rewrite map_map, flat_map_concat_map. apply f_equal, f_equal.
    apply map_ext_in. intros x Hx. now rewrite (Hall x Hx).
  - intros y Hy. apply in_map_iff in Hy. destruct Hy as [x [<- Hx]].
    now rewrite (Hall x Hx).
Qed.

Lemma map_combine_self {A B C : Type} (F : B -> A -> C) (G : A -> B) (l : list A) :
  map (fun rv => F (snd rv) (fst rv)) (combine l (map G l))
  = map (fun x => F (G x) x) l.
Proof. induction l as [| x l IH]; simpl; [reflexivity | now rewrite IH]. Qed.

Lemma appended_keys (client_id : value) (groups : list (string * list value))
  (r : record) :
  In r (appended client_id groups) ->
  dict_keys r = ["client_id"; "group_name"; "supplier_id"].
Proof.
  unfold appended. intros Hr. apply in_flat_map in Hr.
  destruct Hr as [g [_ Hr]]. apply in_map_iff in Hr.
  destruct Hr as [m [<- _]]. reflexivity.
Qed.

Lemma appended_rows (client_id : value) (groups : list (string * list value)) :
  map (fun r => set_nth 0 (flatten_oid (cell 0 (map snd r))) (map snd r))
      (appended client_id groups)
  = triples client_id groups.
Proof.
  unfold appended, triples. rewrite !flat_map_concat_map, concat_map, map_map.
  f_equal. apply map_ext. intros g. now rewrite map_map.
Qed.

Lemma triples_appended_nil (docs : list (value * list (string * list value))) :
  flat_map (fun d => appended (fst d) (snd d)) docs = [] ->
  flat_map (fun d => triples (fst d) (snd d)) docs = [].
Proof.
  intros Hnil.
  assert (Hmap : map (fun r => set_nth 0 (flatten_oid (cell 0 (map snd r))) (map snd r))
                   (flat_map (fun d => appended (fst d) (snd d)) docs)
                 = flat_map (fun d => triples (fst d) (snd d)) docs).
  { rewrite !flat_map_concat_map, concat_map, map_map. f_equal.
    apply map_ext. intros d. apply appended_rows. }
  now rewrite Hnil in Hmap.
Qed.

(** X20.  The part of C2 the code keeps.  With no renaming configured, a set of
    well-shaped documents that holds at least one member is turned into one
    row per client, group and member, in the order of the documents, then of
    the groups, then of the members; a document with no group adds no row. *)
Lemma transform_supplier_group_expands (cfg : Config) (ms : mapping_spec)
  (docs : list (value * list (string * list value))) :
  mapping_of cfg "supplier_group" = Ok ms -> ms_rename ms = [] ->
  flat_map (fun d => triples (fst d) (snd d)) docs <> [] ->
  transform_supplier_group cfg
    (map (fun d => supplier_group_doc (fst d) (snd d)) docs)
  = Ok (mkDF ["client_id"; "group_name"; "supplier_id"]
          (flat_map (fun d => triples (fst d) (snd d)) docs)).
Proof.
  intros Hms Hrename Hrows.
  assert (Hdocs : map (fun d => supplier_group_doc (fst d) (snd d)) docs <> []).
  { destruct docs; [now destruct Hrows | discriminate]. }
  assert (Happ : flat_map (fun d => appended (fst d) (snd d)) docs <> []).
  { intros Hnil. now apply Hrows, triples_appended_nil. }
  unfold transform_supplier_group, rename_columns.
  rewrite Hms. cbn [bind]. rewrite Hrename. cbn [bind].
  rewrite (from_records_uniform ["client_id"; "supplier_groups"]); try assumption.
  2: { repeat constructor; simpl; intuition discriminate. }
  2: { intros r Hr. apply in_map_iff in Hr. destruct Hr as [d [<- _]]. reflexivity. }
  unfold getitem_columns, missing_columns. cbn [filter has_column mem existsb
    columns String.eqb Ascii.eqb Bool.eqb negb orb map index_of option_map rows bind].
  rewrite !map_map.
  rewrite (flat_map_result_map _ _ (fun d => appended (fst d) (snd d))).
  2: { intros d _. apply expand_row_doc. }
  cbn [bind].
  rewrite (from_records_uniform ["client_id"; "group_name"; "supplier_id"]);
    try assumption.
  2: { repeat constructor; simpl; intuition discriminate. }
  2: { intros r Hr. apply in_flat_map in Hr. destruct Hr as [d [_ Hr]].
       eapply appended_keys; eassumption. }
  unfold series, set_series. cbn [columns index_of String.eqb Ascii.eqb Bool.eqb
    rows bind].
  apply f_equal, f_equal.
  rewrite (map_map (cell 0) flatten_oid).
  rewrite (map_combine_self (fun v row => set_nth 0 v row)
             (fun row => flatten_oid (cell 0 row))).
  rewrite map_map.
  rewrite !flat_map_concat_map, concat_map, map_map. f_equal.
  apply map_ext. intros d. apply appended_rows.
Qed.

(** The example of C2: three rows, in that order. *)
Lemma transform_supplier_group_example :
  transform_supplier_group test_config
    [[("client_id", VDict [("$oid", VStr "C1")]);
      ("supplier_groups",
       VDict [("g1", VList [VDict [("$oid", VStr "101")];
                            VDict [("$oid", VStr "102")]]);
              ("g2", VList [VDict [("$oid", VStr "103")]])])]]
  = Ok (mkDF ["client_id"; "group_name"; "supplier_id"]
          [[VStr "C1"; VStr "g1"; VStr "101"];
           [VStr "C1"; VStr "g1"; VStr "102"];
           [VStr "C1"; VStr "g2"; VStr "103"]]).
Proof. reflexivity. Qed.

(** C2, where the code leaves the claim.  A document whose groups are empty
    adds no row, but when no row at all has been collected the frame built
    from the rows has no column and reading its [client_id] raises
    [KeyError]; and a document that lacks the key [supplier_groups] gets a
    missing cell, which is true in a test, so the loop asks it for its
    [items] and raises [AttributeError].  Neither document set yields the
    empty result the claim describes. *)
Theorem transform_supplier_group_without_groups :
  expand_row (VDict [("$oid", VStr "C1")]) (VDict []) = Ok []
  /\ transform_supplier_group test_config
       [[("client_id", VDict [("$oid", VStr "C1")]); ("supplier_groups", VDict [])]]
     = Raise (KeyError ["client_id"])
  /\ rows (from_records
             [[("client_id", VDict [("$oid", VStr "C1")]);
               ("supplier_groups", VDict [("g1", VList [VDict [("$oid", VStr "101")]])])];
              [("client_id", VDict [("$oid", VStr "C2")])]])
     = [[VDict [("$oid", VStr "C1")];
         VDict [("g1", VList [VDict [("$oid", VStr "101")]])]];
        [VDict [("$oid", VStr "C2")]; VNaN]]
  /\ transform_supplier_group test_config
       [[("client_id", VDict [("$oid", VStr "C1")]);
         ("supplier_groups", VDict [("g1", VList [VDict [("$oid", VStr "101")]])])];
        [("client_id", VDict [("$oid", VStr "C2")])]]
     = Raise AttributeError.
Proof. repeat split; reflexivity. Qed.

(* ================================================================== *)
(** * The theorems at concrete inputs *)

Lemma clients_duplicates_pass_witness :
  transform_clients (H := strict_lib) test_config clients_input = Ok clients_expected.
Proof.
  eapply (fun df1 df2 s h1 h2 h3 h4 h5 h6 h7 =>
            proj1 (proj2 (proj2
              (clients_duplicates_pass (H := strict_lib) test_config clients_input
                 df1 df2 clients_expected s 0 1 (VStr "6086c347701bfd9e246ae133")
                 h1 h2 h3 h4 h5 h6 h7)))).
  - reflexivity.
  - reflexivity.
  - reflexivity.
  - reflexivity.
  - lia.
  - reflexivity.
  - reflexivity.
Defined.

Lemma validate_id_column_exact_length_witness :
  validate_id_column (H := strict_lib) "id" 3 (mkDF ["id"] [[VStr "abc"]; [VStr "xyz"]])
  = (mkDF ["id"] [[VStr "abc"]; [VStr "xyz"]], Ok tt).
Proof.
  apply (proj2 (proj2 (validate_id_column_exact_length (H := strict_lib)
                         (mkDF ["id"] [[VStr "abc"]; [VStr "xyz"]]) "id" 3
                         [VStr "abc"; VStr "xyz"] eq_refl))).
  simpl. intros v [<- | [<- | []]]; repeat split; reflexivity.
Defined.

Lemma validate_date_column_parses_witness :
  snd (validate_date_column (H := strict_lib) "date"
         (mkDF ["date"] [[VStr "not-a-date"]]))
  = Raise (ValueError (InvalidDates "date")).
Proof.
  apply (validate_date_column_parses (H := strict_lib)
           (mkDF ["date"] [[VStr "2023-01-01"]]) "date" [VStr "2023-01-01"]);
    reflexivity.
Defined.

Lemma transform_dispatch_witness :
  ~ In "orders" known_cases
  /\ transform (H := strict_lib) test_config [] "orders"
     = Raise (ValueError (UnknownCase "orders")).
Proof.
  assert (Hunknown : ~ In "orders" known_cases).
  { simpl. intros [E | [E | [E | [E | [E | []]]]]]; discriminate E. }
  split; [exact Hunknown |].
  apply (transform_dispatch (H := strict_lib) test_config [] "orders" Hunknown).
Defined.

Lemma extract_values_idempotent_witness :
  extract_values (VList [VStr "101"; VStr "102"]) = Ok (VList [VStr "101"; VStr "102"]).
Proof.
  apply (extract_values_idempotent [VStr "101"; VStr "102"]). reflexivity.
Defined.

Lemma float_check_fills_nulls_witness :
  series (fst (validate_column_types (H := strict_lib) "priority" "float"
                 (mkDF ["priority"] [[VNone]; [VInt 2]])))
         "priority"
  = Ok [VInt 0; VInt 2].
Proof.
  apply (float_check_fills_nulls (H := strict_lib)
           (mkDF ["priority"] [[VNone]; [VInt 2]]) "priority" [VNone; VInt 2]).
  - repeat constructor.
  - reflexivity.
Defined.

(* ================================================================== *)
(** * Further properties of the code *)

(** ** The primary-key validators *)





(** ** The Extractor *)

(** X3.  [read_data] on a file returns the documents exactly as the file holds
    them, columns outside the required list included, provided every
    required column is a key of at least one document; otherwise it raises
    one error listing all the required columns no document has.  A missing
    file and a file that is not JSON are reported as such, and the selection
    made after the check never raises. *)
Theorem read_data_file (fs : file_system) (source : string)
  (schema_definition : list string) :
  read_data fs "file" source schema_definition
  = match lookup source fs with
    | None => ExtractRaise (FileNotFoundError source)
    | Some NotJson => ExtractRaise (InvalidJsonFormat source)
    | Some (Json data) =>
        match filter (fun c => negb (some_record_has data c)) schema_definition with
        | [] => Extracted data
        | missing => ExtractRaise (MissingRequiredColumns missing)
        end
    end.
Proof.
  unfold read_data, _read_from_file. simpl.
  destruct (lookup source fs) as [[data |] |]; simpl; try reflexivity.
  unfold _validate_schema.
  change (filter (fun col => negb (has_column (from_records data) col)) schema_definition)
    with (missing_columns (from_records data) schema_definition).
  rewrite getitem_columns_from_records, missing_columns_from_records.
  now destruct (filter (fun c => negb (some_record_has data c)) schema_definition).
Qed.

(** X4.  Only files can be read: the source type ["mongo"] always ends in
    [NotImplementedError] and any other source type in the invalid-source
    error, whatever the file system holds. *)
Theorem read_data_other_sources (fs : file_system)
  (source_type source : string) (schema_definition : list string)
  (Hnot_file : source_type <> "file") :
  read_data fs source_type source schema_definition
  = ExtractRaise (if String.eqb source_type "mongo"
                  then NotImplementedError else InvalidSourceType).
Proof.
  unfold read_data, _read_from_mongo.
  destruct (String.eqb_spec source_type "file") as [-> | _]; [congruence |].
  now destruct (String.eqb source_type "mongo").
Qed.

(** ** The Loader *)





(** ** The type checks *)

Section TypeChecks.
Context `{PandasLib}.

(** X6.  On a column of the table the boolean check accepts exactly when every
    value is one of [True], [False], [1], [0], and raises the non-boolean
    error naming the column otherwise; a null is not one of the four. *)
Theorem boolean_check_accepts (df : DataFrame) (c : string) (s : list value)
  (Hs : series df c = Ok s) :
  (validate_column_types c "boolean" df = (df, Ok tt) <->
   forall v, In v s ->
     v = VBool true \/ v = VBool false \/ v = VInt 1 \/ v = VInt 0)
  /\ (validate_column_types c "boolean" df = (df, Ok tt)
      \/ validate_column_types c "boolean" df
         = (df, Raise (ValueError (NonBoolean c)))).
Proof.
  unfold validate_column_types, mbind, get_frame, lift, raise, ret.
  rewrite (series_has_column _ _ _ Hs), Hs. simpl.
  destruct (forallb isin_boolean s) eqn:Hb; simpl.
  - split; [| now left]. split; [| reflexivity]. intros _ v Hin.
    rewrite forallb_forall in Hb. specialize (Hb v Hin).
    destruct v as [| | [|] | z | | |]; simpl in Hb; try discriminate; auto.
    apply orb_true_iff in Hb. destruct Hb as [Hz | Hz];
      apply Z.eqb_eq in Hz; subst; auto.
  - split; [| now right]. split; [discriminate |]. intros Hall.
    assert (Ht : forallb isin_boolean s = true).
    { apply forallb_forall. intros v Hin.
      destruct (Hall v Hin) as [-> | [-> | [-> | ->]]]; reflexivity. }
    congruence.
Qed.

(** X7.  On a column of a well-formed table the float check accepts exactly when
    every value is a null or something [pd.to_numeric] can read: a null never
    makes the check fail, since it is 0 by the time the values are read.
    Otherwise the check raises the non-float error naming the column. *)
Theorem float_check_accepts (df : DataFrame) (c : string) (s : list value)
  (Hwf : wf_frame df) (Hs : series df c = Ok s) :
  (snd (validate_column_types c "float" df) = Ok tt <->
   forall v, In v s -> isnull v = true \/ to_numeric_isnull v = false)
  /\ (snd (validate_column_types c "float" df) = Ok tt
      \/ snd (validate_column_types c "float" df)
         = Raise (ValueError (NonFloat c))).
Proof.
  rewrite (validate_column_types_float_run df c s Hwf Hs). simpl snd.
  destruct (forallb (fun v => negb (to_numeric_isnull v)) (fillna0 s)) eqn:Hf.
  - split; [| now left]. split; [| reflexivity]. intros _ v Hin.
    destruct (isnull v) eqn:Hn; [now left | right].
    rewrite forallb_forall in Hf.
    assert (Hin' : In v (fillna0 s)).
    { unfold fillna0. apply in_map_iff. exists v. now rewrite Hn. }
    specialize (Hf v Hin'). now apply negb_true_iff in Hf.
  - split; [| now right]. split; [discriminate |]. intros Hall.
    assert (Ht : forallb (fun v => negb (to_numeric_isnull v)) (fillna0 s) = true).
    { apply forallb_forall. intros w Hw. unfold fillna0 in Hw.
      apply in_map_iff in Hw. destruct Hw as [v [<- Hin]].
      destruct (isnull v) eqn:Hn; [reflexivity |].
      destruct (Hall v Hin) as [Hv | Hv]; [congruence | now rewrite Hv]. }
    congruence.
Qed.

End TypeChecks.

(** ** What the quality checks do to the frame *)

Lemma rows_set_series (df : DataFrame) (c : string) (s : list value) :
  List.length s = List.length (rows df) ->
  List.length (rows (set_series df c s)) = List.length (rows df).
Proof.
  unfold set_series. intros Hlen.
  destruct (index_of c (columns df)); [| reflexivity].
  simpl. rewrite length_map, length_combine. lia.
Qed.

Lemma set_nth_length (i : nat) (v : value) (row : list value) :
  List.length (set_nth i v row) = List.length row.
Proof.
  revert i. induction row as [| x row IH]; intros i; destruct i; simpl; auto.
Qed.

Lemma wf_set_series (df : DataFrame) (c : string) (s : list value) :
  wf_frame df -> wf_frame (set_series df c s).
Proof.
  unfold wf_frame, set_series. intros Hwf.
  destruct (index_of c (columns df)) as [i |]; [| assumption].
  simpl. revert s. induction Hwf as [| row rws Hrow Hwf IH]; intros s.
  - constructor.
  - destruct s as [| v s]; simpl; constructor.
    + simpl. now rewrite set_nth_length.
    + apply IH.
Qed.

Section FrameOfChecks.
Context `{PandasLib}.

Lemma validate_column_types_frame_cases (df : DataFrame) (c ty : string) :
  fst (validate_column_types c ty df) = df
  \/ (ty = "float"
      /\ exists s, series df c = Ok s
                   /\ fst (validate_column_types c ty df)
                      = set_series df c (fillna0 s)).
Proof.
  destruct (String.eqb_spec ty "float") as [-> | Hty];
    [| left; now apply validate_column_types_frame].
  unfold validate_column_types, mbind, get_frame, put_frame, lift, raise, ret.
  destruct (has_column df c) eqn:Hc; simpl; [| now left].
  destruct (has_column_series _ _ Hc) as [s Hs]. rewrite Hs.
  right. split; [reflexivity |]. exists s. split; [reflexivity |].
  destruct (series (set_series df c (fillna0 s)) c) as [s' |]; [| reflexivity].
  now destruct (negb (forallb (fun v => negb (to_numeric_isnull v)) s')).
Qed.

Lemma check_column_frame_cases (cd : column_def) (df : DataFrame) :
  fst (check_column cd df) = df
  \/ (lower (cd_type cd) = "float"
      /\ exists s, series df (cd_name cd) = Ok s
                   /\ fst (check_column cd df)
                      = set_series df (cd_name cd) (fillna0 s)).
Proof.
  unfold check_column, mbind.
  assert (E1 : fst (when (contains "date" (lower (cd_type cd)))
                      (validate_date_column (cd_name cd)) df) = df).
  { unfold when. destruct (contains "date" (lower (cd_type cd)));
      [apply validate_date_column_frame | reflexivity]. }
  destruct (when (contains "date" (lower (cd_type cd)))
              (validate_date_column (cd_name cd)) df) as [d1 [u1 | e1]];
    simpl in E1; subst d1; [| now left].
  assert (E2 : fst (when (String.eqb (lower (cd_type cd)) "varchar")
                      (match cd_length cd with
                       | Some length => validate_id_column (cd_name cd) length
                       | None => ret tt
                       end) df) = df).
  { unfold when. destruct (String.eqb (lower (cd_type cd)) "varchar");
      [| reflexivity].
    destruct (cd_length cd); [apply validate_id_column_frame | reflexivity]. }
  destruct (when (String.eqb (lower (cd_type cd)) "varchar")
              (match cd_length cd with
               | Some length => validate_id_column (cd_name cd) length
               | None => ret tt
               end) df) as [d2 [u2 | e2]];
    simpl in E2; subst d2; [| now left].
  unfold when.
  destruct (String.eqb (lower (cd_type cd)) "float"
            || String.eqb (lower (cd_type cd)) "boolean"); [| now left].
  apply validate_column_types_frame_cases.
Qed.

Lemma for_each_check_column_frame (schema : list column_def) (df : DataFrame) :
  columns (fst (for_each check_column schema df)) = columns df
  /\ List.length (rows (fst (for_each check_column schema df)))
     = List.length (rows df)
  /\ (wf_frame df -> wf_frame (fst (for_each check_column schema df)))
  /\ forall c,
       (forall cd, In cd schema -> cd_name cd = c ->
                   lower (cd_type cd) <> "float") ->
       series (fst (for_each check_column schema df)) c = series df c.
Proof.
  revert df. induction schema as [| cd schema IH]; intros df.
  - simpl. auto.
  - cbn [for_each]. unfold mbind.
    assert (Hstep : columns (fst (check_column cd df)) = columns df
              /\ List.length (rows (fst (check_column cd df)))
                 = List.length (rows df)
              /\ (wf_frame df -> wf_frame (fst (check_column cd df)))
              /\ forall c, (cd_name cd = c -> lower (cd_type cd) <> "float") ->
                           series (fst (check_column cd df)) c = series df c).
    { destruct (check_column_frame_cases cd df) as [-> | [Hf [s [Hs ->]]]];
        [auto |].
      assert (Hlen : List.length (fillna0 s) = List.length (rows df)).
      { rewrite fillna0_length. eapply series_length; eassumption. }
      split; [apply columns_set_series |].
      split; [now apply rows_set_series |].
      split; [apply wf_set_series |].
      intros c Hc. apply series_set_series_other; [| assumption].
      intros ->. now apply Hc. }
    destruct (check_column cd df) as [d1 [u | e]]; simpl in Hstep.
    + destruct Hstep as [S1 [S2 [S3 S4]]].
      destruct (IH d1) as [I1 [I2 [I3 I4]]].
      split; [congruence |]. split; [congruence |]. split; [auto |].
      intros c Hc. rewrite I4, S4; [reflexivity | |].
      * intros Hn. apply (Hc cd); [now left | assumption].
      * intros cd' Hin. apply Hc. now right.
    + simpl. destruct Hstep as [S1 [S2 [S3 S4]]].
      split; [assumption |]. split; [assumption |]. split; [assumption |].
      intros c Hc. apply S4. intros Hn. apply (Hc cd); [now left | assumption].
Qed.

Lemma check_data_quality_frame
  (schemas : list (string * list column_def)) (table_name : string)
  (df : DataFrame) :
  columns (fst (check_data_quality_dataframe schemas table_name df)) = columns df
  /\ List.length (rows (fst (check_data_quality_dataframe schemas table_name df)))
     = List.length (rows df)
  /\ (wf_frame df ->
      wf_frame (fst (check_data_quality_dataframe schemas table_name df)))
  /\ forall c,
       (forall schema cd, lookup table_name schemas = Some schema ->
          In cd schema -> cd_name cd = c -> lower (cd_type cd) <> "float") ->
       series (fst (check_data_quality_dataframe schemas table_name df)) c
       = series df c.
Proof.
  unfold check_data_quality_dataframe.
  destruct (lookup table_name schemas) as [[| cd schema] |]; simpl; auto.
  destruct (for_each_check_column_frame (cd :: schema) df) as [F1 [F2 [F3 F4]]].
  repeat split; try assumption.
  intros c Hc. apply F4. intros cd' Hin. now apply (Hc (cd :: schema)).
Qed.

(** X8.  Whatever the schema and whatever the outcome, the quality check of a
    table leaves the frame with the same columns and the same number of
    rows, keeps it well formed, and changes no cell of a column that the
    schema does not declare as a float. *)
Theorem check_data_quality_keeps_frame
  (schemas : list (string * list column_def)) (table_name : string)
  (df : DataFrame) :
  columns (fst (check_data_quality_dataframe schemas table_name df)) = columns df
  /\ List.length (rows (fst (check_data_quality_dataframe schemas table_name df)))
     = List.length (rows df)
  /\ (wf_frame df ->
      wf_frame (fst (check_data_quality_dataframe schemas table_name df)))
  /\ forall c,
       (forall schema cd, lookup table_name schemas = Some schema ->
          In cd schema -> cd_name cd = c -> lower (cd_type cd) <> "float") ->
       series (fst (check_data_quality_dataframe schemas table_name df)) c
       = series df c.
Proof. apply check_data_quality_frame. Qed.

End FrameOfChecks.

(** ** The pipelines *)

Lemma map_result_length {A B : Type} (f : A -> result B) (l : list A) (l' : list B) :
  map_result f l = Ok l' -> List.length l' = List.length l.
Proof.
  revert l'. induction l as [| x l IH]; intros l'; simpl.
  - now intros [= <-].
  - destruct (f x) as [y |]; simpl; [| discriminate].
    destruct (map_result f l) as [ys |]; simpl; [| discriminate].
    intros [= <-]. simpl. now rewrite (IH ys eq_refl).
Qed.






Section Pipelines.
Context `{PandasLib}.





(** X10.  When the configuration of a collection has no column list, the local
    that should hold the selected frame is never assigned: the suppliers and
    the sonar results pipelines then raise [UnboundLocalError] for every
    input, at the first check that reads the local. *)
Theorem transform_without_select (cfg : Config) (data : list record)
  (ms_s ms_r : mapping_spec)
  (Hs : mapping_of cfg "suppliers" = Ok ms_s) (Hs_none : ms_select ms_s = None)
  (Hr : mapping_of cfg "sonar_results" = Ok ms_r) (Hr_none : ms_select ms_r = None) :
  transform cfg data "suppliers" = Raise (UnboundLocalError "supplier_df")
  /\ transform cfg data "sonar_results" = Raise (UnboundLocalError "sonar_result_df").
Proof.
  unfold transform. simpl.
  unfold transform_suppliers, transform_sonar_results, rename_columns, select_stage.
  rewrite Hs, Hr. cbn [bind]. rewrite Hs_none, Hr_none.
  split; [destruct (ms_rename ms_s) | destruct (ms_rename ms_r)]; reflexivity.
Qed.

End Pipelines.

(** ** What escapes a pipeline *)

Lemma bind_raise {A B : Type} (r : result A) (k : A -> result B) (e : exn) :
  bind r k = Raise e -> r = Raise e \/ exists a, r = Ok a /\ k a = Raise e.
Proof.
  destruct r as [a | e']; simpl; intros Hr; [right; now exists a |].
  injection Hr as ->. now left.
Qed.

Lemma map_result_raise {A B : Type} (f : A -> result B) (l : list A) (e : exn) :
  map_result f l = Raise e -> exists x, In x l /\ f x = Raise e.
Proof.
  induction l as [| x l IH]; simpl; [discriminate |].
  destruct (f x) as [y | e'] eqn:Hx; simpl.
  - destruct (map_result f l) as [ys | e'']; simpl; [discriminate |].
    intros [= ->]. destruct (IH eq_refl) as [x' [Hin Hx']]. exists x'. auto.
  - intros [= ->]. exists x. auto.
Qed.

Lemma series_raise (df : DataFrame) (c : string) (e : exn) :
  series df c = Raise e -> is_Exception e = true.
Proof.
  unfold series. destruct (index_of c (columns df)); [discriminate |].
  now intros [= <-].
Qed.

Lemma py_getitem_raise (v : value) (k : string) (e : exn) :
  py_getitem v k = Raise e -> is_Exception e = true.
Proof.
  destruct v; simpl; try (now intros [= <-]).
  destruct (dict_get k d); [discriminate | now intros [= <-]].
Qed.

Lemma getitem_columns_raise (df : DataFrame) (cols : list string) (e : exn) :
  getitem_columns df cols = Raise e -> is_Exception e = true.
Proof.
  unfold getitem_columns. destruct (missing_columns df cols); [discriminate |].
  now intros [= <-].
Qed.

Lemma mapping_of_raise (cfg : Config) (case : string) (e : exn) :
  mapping_of cfg case = Raise e -> is_Exception e = true.
Proof.
  unfold mapping_of. destruct (lookup case (column_mappings cfg)); [discriminate |].
  now intros [= <-].
Qed.

Lemma rename_columns_raise (cfg : Config) (df : DataFrame) (case : string) (e : exn) :
  rename_columns cfg df case = Raise e -> is_Exception e = true.
Proof.
  unfold rename_columns. intros Hr. apply bind_raise in Hr.
  destruct Hr as [Hr | [ms [_ Hr]]]; [now apply mapping_of_raise in Hr |].
  now destruct (ms_rename ms).
Qed.

Lemma select_stage_raise (cfg : Config) (df : DataFrame) (case : string) (e : exn) :
  select_stage cfg df case = Raise e -> is_Exception e = true.
Proof.
  unfold select_stage. intros Hr. apply bind_raise in Hr.
  destruct Hr as [Hr | [ms [_ Hr]]]; [now apply mapping_of_raise in Hr |].
  destruct (ms_select ms); [| discriminate].
  apply bind_raise in Hr. destruct Hr as [Hr | [d [_ Hr]]]; [| discriminate].
  now apply getitem_columns_raise in Hr.
Qed.

Lemma extract_values_raise (v : value) (e : exn) :
  extract_values v = Raise e -> is_Exception e = true.
Proof.
  unfold extract_values. destruct v; try discriminate.
  destruct (forallb is_dict l); [| discriminate].
  destruct (all_keys l) as [| key [| ? ?]]; try discriminate.
  intros Hr. apply bind_raise in Hr. destruct Hr as [Hr | [vs [_ Hr]]]; [| discriminate].
  apply map_result_raise in Hr. destruct Hr as [x [_ Hx]].
  now apply py_getitem_raise in Hx.
Qed.

Lemma process_dict_columns_raise (names : list string) (df : DataFrame) (e : exn) :
  process_dict_columns df names = Raise e -> is_Exception e = true.
Proof.
  revert df. induction names as [| c names IH]; intros df; simpl; [discriminate |].
  destruct (has_column df c); [| now intros [= <-]].
  intros Hr. apply bind_raise in Hr.
  destruct Hr as [Hr | [s [_ Hr]]]; [now apply series_raise in Hr |].
  apply bind_raise in Hr. destruct Hr as [Hr | [s' [_ Hr]]]; [| now apply IH in Hr].
  apply map_result_raise in Hr. destruct Hr as [x [_ Hx]].
  now apply extract_values_raise in Hx.
Qed.

Lemma apply_oid_list_raise (df : DataFrame) (c : string) (e : exn) :
  apply_oid_list df c = Raise e -> is_Exception e = true.
Proof.
  unfold apply_oid_list. intros Hr. apply bind_raise in Hr.
  destruct Hr as [Hr | [s [_ Hr]]]; [now apply series_raise in Hr |].
  apply bind_raise in Hr. destruct Hr as [Hr | [s' [_ Hr]]]; [| discriminate].
  apply map_result_raise in Hr. destruct Hr as [x [_ Hx]].
  unfold oid_list in Hx. destruct x; try discriminate.
  apply bind_raise in Hx. destruct Hx as [Hx | [vs [_ Hx]]]; [| discriminate].
  apply map_result_raise in Hx. destruct Hx as [y [_ Hy]].
  now apply py_getitem_raise in Hy.
Qed.

Lemma expand_row_raise (client_id supplier_groups : value) (e : exn) :
  expand_row client_id supplier_groups = Raise e -> is_Exception e = true.
Proof.
  unfold expand_row. destruct (truthy supplier_groups); [| discriminate].
  destruct supplier_groups; try (now intros [= <-]).
  unfold flat_map_result. intros Hr. apply bind_raise in Hr.
  destruct Hr as [Hr | [yss [_ Hr]]]; [| discriminate].
  apply map_result_raise in Hr. destruct Hr as [g [_ Hg]].
  unfold expand_suppliers in Hg. apply bind_raise in Hg.
  destruct Hg as [Hg | [items [_ Hg]]].
  - destruct (snd g); simpl in Hg; try discriminate; now injection Hg as <-.
  - apply map_result_raise in Hg. destruct Hg as [m [_ Hm]].
    apply bind_raise in Hm. destruct Hm as [Hm | [x [_ Hm]]]; [| discriminate].
    now apply py_getitem_raise in Hm.
Qed.

Lemma transform_supplier_group_raise (cfg : Config) (data : list record) (e : exn) :
  transform_supplier_group cfg data = Raise e -> is_Exception e = true.
Proof.
  unfold transform_supplier_group. intros Hr. apply bind_raise in Hr.
  destruct Hr as [Hr | [d1 [_ Hr]]]; [now apply rename_columns_raise in Hr |].
  apply bind_raise in Hr.
  destruct Hr as [Hr | [pairs [_ Hr]]]; [now apply getitem_columns_raise in Hr |].
  apply bind_raise in Hr. destruct Hr as [Hr | [new_rows [_ Hr]]].
  - unfold flat_map_result in Hr. apply bind_raise in Hr.
    destruct Hr as [Hr | [yss [_ Hr]]]; [| discriminate].
    apply map_result_raise in Hr. destruct Hr as [row [_ Hrow]].
    now apply expand_row_raise in Hrow.
  - apply bind_raise in Hr.
    destruct Hr as [Hr | [s [_ Hr]]]; [now apply series_raise in Hr | discriminate].
Qed.

Section Escapes.
Context `{PandasLib}.

Lemma checked_raise (cfg : Config) (local_name : string) (x_df : option DataFrame)
  (id_column table_name : string) (e : exn) :
  checked cfg local_name x_df id_column table_name = Raise e ->
  is_Exception e = true.
Proof.
  unfold checked. destruct x_df as [df |]; [| now intros [= <-]].
  destruct (checks cfg id_column table_name df) as [d [u | e']]; [discriminate |].
  destruct e'; try discriminate; now intros [= <-].
Qed.

Lemma select_checked_raise (cfg : Config) (df : DataFrame)
  (case local_name id_column table_name : string) (e : exn) :
  (sel <- select_stage cfg df case ;;
   checked cfg local_name sel id_column table_name) = Raise e ->
  is_Exception e = true.
Proof.
  intros Hr. apply bind_raise in Hr.
  destruct Hr as [Hr | [sel [_ Hr]]];
    [now apply select_stage_raise in Hr | now apply checked_raise in Hr].
Qed.

Lemma transform_raise (cfg : Config) (data : list record)
  (case : string) (e : exn) :
  transform cfg data case = Raise e -> is_Exception e = true.
Proof.
  intros Hraise. unfold transform in Hraise.
  destruct (String.eqb case "clients").
  { unfold transform_clients in Hraise. apply bind_raise in Hraise.
    destruct Hraise as [Hr | [d1 [_ Hr]]]; [now apply rename_columns_raise in Hr |].
    apply bind_raise in Hr.
    destruct Hr as [Hr | [d2 [_ Hr]]]; [now apply process_dict_columns_raise in Hr |].
    now apply select_checked_raise in Hr. }
  destruct (String.eqb case "supplier_group");
    [now apply transform_supplier_group_raise in Hraise |].
  destruct (String.eqb case "suppliers").
  { unfold transform_suppliers in Hraise. apply bind_raise in Hraise.
    destruct Hraise as [Hr | [d1 [_ Hr]]]; [now apply rename_columns_raise in Hr |].
    now apply select_checked_raise in Hr. }
  destruct (String.eqb case "sonar_runs").
  { unfold transform_sonar_runs in Hraise. apply bind_raise in Hraise.
    destruct Hraise as [Hr | [d0 [_ Hr]]]; [now apply apply_oid_list_raise in Hr |].
    apply bind_raise in Hr.
    destruct Hr as [Hr | [d0' [_ Hr]]]; [now apply apply_oid_list_raise in Hr |].
    apply bind_raise in Hr.
    destruct Hr as [Hr | [d1 [_ Hr]]]; [now apply rename_columns_raise in Hr |].
    now apply select_checked_raise in Hr. }
  destruct (String.eqb case "sonar_results").
  { unfold transform_sonar_results in Hraise. apply bind_raise in Hraise.
    destruct Hraise as [Hr | [d1 [_ Hr]]]; [now apply rename_columns_raise in Hr |].
    now apply select_checked_raise in Hr. }
  now injection Hraise as <-.
Qed.

(** X11.  No pipeline ends the process: whatever [transform] raises is an ordinary
    [Exception], never the [SystemExit] the primary-key validators ask for. *)
Theorem transform_never_exits (cfg : Config) (data : list record)
  (case : string) (e : exn)
  (Hraise : transform cfg data case = Raise e) :
  is_Exception e = true.
Proof. exact (transform_raise cfg data case e Hraise). Qed.


End Escapes.

(** ** Quality failures *)

Section QualityFailures.
Context `{PandasLib}.

Lemma mbind_raise {A B : Type} (m : M A) (k : A -> M B) (df : DataFrame) (e : exn) :
  snd (mbind m k df) = Raise e ->
  snd (m df) = Raise e \/ exists d a, m df = (d, Ok a) /\ snd (k a d) = Raise e.
Proof.
  unfold mbind. destruct (m df) as [d [a | e']]; simpl; intros Hr.
  - right. now exists d, a.
  - left. now injection Hr as ->.
Qed.

Lemma validate_date_column_raise (c : string) (df : DataFrame) (e : exn) :
  snd (validate_date_column c df) = Raise e -> is_Exception e = true.
Proof.
  destruct (has_column df c) eqn:Hc.
  - destruct (has_column_series _ _ Hc) as [s Hs].
    rewrite (validate_date_column_run df c s Hs). simpl.
    destruct (existsb to_datetime_isnull s); [now intros [= <-] | discriminate].
  - rewrite (validate_date_column_missing df c Hc). now intros [= <-].
Qed.

Lemma validate_id_column_raise (c : string) (n : Z) (df : DataFrame) (e : exn) :
  snd (validate_id_column c n df) = Raise e -> is_Exception e = true.
Proof.
  destruct (has_column df c) eqn:Hc.
  - destruct (has_column_series _ _ Hc) as [s Hs].
    rewrite (validate_id_column_run df c n s Hs). simpl.
    repeat match goal with
           | |- context [if existsb ?f ?l then _ else _] => destruct (existsb f l)
           end; try discriminate; now intros [= <-].
  - rewrite (validate_id_column_missing df c n Hc). now intros [= <-].
Qed.

Lemma validate_column_types_raise (c ty : string) (df : DataFrame) (e : exn) :
  snd (validate_column_types c ty df) = Raise e -> is_Exception e = true.
Proof.
  unfold validate_column_types, mbind, get_frame, put_frame, lift, raise, ret.
  destruct (has_column df c) eqn:Hc; simpl; [| now intros [= <-]].
  destruct (has_column_series _ _ Hc) as [s Hs]. rewrite Hs.
  destruct (String.eqb ty "float").
  - destruct (series (set_series df c (fillna0 s)) c) as [s' | e'] eqn:Hs'.
    + destruct (negb (forallb (fun v => negb (to_numeric_isnull v)) s'));
        simpl; [now intros [= <-] | discriminate].
    + simpl. intros [= <-]. now apply series_raise in Hs'.
  - destruct (String.eqb ty "boolean").
    + destruct (negb (forallb isin_boolean s)); simpl;
        [now intros [= <-] | discriminate].
    + destruct (String.eqb ty "varchar"); discriminate.
Qed.

Lemma check_column_raise (cd : column_def) (df : DataFrame) (e : exn) :
  snd (check_column cd df) = Raise e -> is_Exception e = true.
Proof.
  unfold check_column, when. intros Hr.
  apply mbind_raise in Hr. destruct Hr as [Hr | [d1 [u1 [_ Hr]]]].
  { destruct (contains "date" (lower (cd_type cd)));
      [now apply validate_date_column_raise in Hr | discriminate]. }
  apply mbind_raise in Hr. destruct Hr as [Hr | [d2 [u2 [_ Hr]]]].
  { destruct (String.eqb (lower (cd_type cd)) "varchar"); [| discriminate].
    destruct (cd_length cd);
      [now apply validate_id_column_raise in Hr | discriminate]. }
  destruct (String.eqb (lower (cd_type cd)) "float"
            || String.eqb (lower (cd_type cd)) "boolean");
    [now apply validate_column_types_raise in Hr | discriminate].
Qed.

Lemma check_data_quality_raise (schemas : list (string * list column_def))
  (table_name : string) (df : DataFrame) (e : exn) :
  snd (check_data_quality_dataframe schemas table_name df) = Raise e ->
  is_Exception e = true.
Proof.
  unfold check_data_quality_dataframe.
  destruct (lookup table_name schemas) as [[| cd schema] |];
    try (now intros [= <-]).
  generalize (cd :: schema). clear cd schema. intros schema. revert df.
  induction schema as [| cd schema IH]; intros df; [discriminate |].
  cbn [for_each]. intros Hr. apply mbind_raise in Hr.
  destruct Hr as [Hr | [d [u [_ Hr]]]];
    [now apply check_column_raise in Hr | now apply IH in Hr].
Qed.

(** X13.  A failed quality check is not swallowed the way a primary-key failure
    is.  When the selected suppliers pass both primary-key checks and the
    quality check of the table raises, [transform_suppliers] raises the same
    exception, and the task body wraps it in a [RuntimeError] and leaves the
    sink as it was. *)
Theorem quality_failure_aborts (cfg : Config) (data : list record)
  (d1 df df' : DataFrame) (e : exn)
  (Hrename : rename_columns cfg (json_normalize data) "suppliers" = Ok d1)
  (Hselect : select_stage cfg d1 "suppliers" = Ok (Some df))
  (Hnull : check_empty_or_null_and_raise df "supplier_id" = Ok tt)
  (Hdup : check_duplicates_and_raise df "supplier_id" = Ok tt)
  (Hquality : check_data_quality_dataframe (schema_definitions cfg) "suppliers" df
              = (df', Raise e)) :
  transform_suppliers cfg data = Raise e
  /\ forall (output_column_names : list (string * list string)) (db : sink),
       run_etl cfg output_column_names data "suppliers" db
       = (db, Raise (RuntimeError "suppliers" e)).
Proof.
  assert (He : is_Exception e = true).
  { apply (check_data_quality_raise (schema_definitions cfg) "suppliers" df).
    now rewrite Hquality. }
  assert (Ht : transform_suppliers cfg data = Raise e).
  { unfold transform_suppliers. rewrite Hrename. cbn [bind].
    rewrite Hselect. cbn [bind].
    unfold checked, checks, mbind, get_frame, lift.
    rewrite Hnull, Hdup, Hquality. destruct e; try reflexivity; discriminate. }
  split; [exact Ht |]. intros out db. unfold run_etl, transform. simpl.
  now rewrite Ht, He.
Qed.

End QualityFailures.

(** ** The two ways of flattening a list of [$oid] wrappers *)

Lemma map_sole_value_wrap (xs : list value) : map sole_value (map wrap_oid xs) = xs.
Proof. rewrite map_map. simpl. apply map_id. Qed.

(** X16.  On a list of [$oid] wrappers the flattening of the clients pipeline
    ([extract_values]) and that of the sonar runs pipeline ([oid_list]) agree:
    both return the wrapped values in order, the empty list included.  They
    part on a null cell, which the first leaves as it is and the second
    replaces by the empty list. *)
Theorem oid_flattenings_agree (xs : list value) :
  oid_list (VList (map wrap_oid xs)) = Ok (VList xs)
  /\ extract_values (VList (map wrap_oid xs)) = Ok (VList xs)
  /\ forall v, isnull v = true ->
       oid_list v = Ok (VList []) /\ extract_values v = Ok v.
Proof.
  split; [| split].
  - unfold oid_list. rewrite map_result_ok with (g := sole_value).
    + simpl. now rewrite map_sole_value_wrap.
    + intros w Hw. apply in_map_iff in Hw. destruct Hw as [x [<- _]]. reflexivity.
  - destruct xs as [| x xs]; [reflexivity |].
    assert (Hall : forallb (single_key "$oid") (map wrap_oid (x :: xs)) = true).
    { apply forallb_forall. intros w Hw. apply in_map_iff in Hw.
      destruct Hw as [y [<- _]]. reflexivity. }
    unfold extract_values.
    assert (Hdict : forallb is_dict (map wrap_oid (x :: xs)) = true).
    { apply forallb_forall. intros w Hw. apply in_map_iff in Hw.
      destruct Hw as [y [<- _]]. reflexivity. }
    assert (Hkeys : all_keys (map wrap_oid (x :: xs)) = ["$oid"]).
    { pose proof (single_key_keys "$oid" _ Hall) as Hk.
      unfold all_keys, uniq. simpl. f_equal. apply uniq_from_seen.
      intros k Hin. left. symmetry. apply Hk. simpl. now right. }
    rewrite Hdict, Hkeys, (single_key_values "$oid" _ Hall).
    simpl. now rewrite map_sole_value_wrap.
  - intros v Hv. destruct v; try discriminate; split; reflexivity.
Qed.

(** ** Normalisation *)

Lemma filter_all_true {A : Type} (p : A -> bool) (l : list A) :
  (forall x, In x l -> p x = true) -> filter p l = l.
Proof.
  induction l as [| x l IH]; intros Hall; simpl; [reflexivity |].
  rewrite (Hall x) by now left. f_equal. apply IH. intros y Hy. apply Hall. now right.
Qed.

Lemma normalise_json_ordered_flat (r : record) :
  (forall kv, In kv r -> is_dict (snd kv) = false) -> normalise_json_ordered r = r.
Proof.
  intros Hflat. unfold normalise_json_ordered, dict_merge.
  rewrite (filter_all_false (fun kv => is_dict (snd kv)) r Hflat). simpl.
  apply filter_all_true. intros kv Hkv. now rewrite (Hflat kv Hkv).
Qed.

(** Documents that hold no nested mapping go through [pd.json_normalize]
    untouched: the frame is the one [pd.DataFrame] builds from them. *)
Lemma json_normalize_flat (data : list record)
  (Hflat : forall r kv, In r data -> In kv r -> is_dict (snd kv) = false) :
  json_normalize data = from_records data.
Proof.
  unfold json_normalize. f_equal. rewrite <- (map_id data) at 2.
  apply map_ext_in. intros r Hr. apply normalise_json_ordered_flat.
  intros kv Hkv. now apply (Hflat r).
Qed.

Lemma normalise_json_leaves :
  forall (v : value) (ks : string) (kv : string * value),
    In kv (normalise_json ks v) -> is_dict (snd kv) = false.
Proof.
  fix IH 1. intros v ks kv. destruct v as [| | b | z | s | l | d];
    try (simpl; intros [<- | []]; reflexivity).
  simpl. induction d as [| [k x] d IHd]; simpl; [tauto |].
  intros Hin. apply in_app_or in Hin. destruct Hin as [Hin | Hin].
  - eapply IH. exact Hin.
  - apply IHd. exact Hin.
Qed.

Lemma dict_set_values (P : value -> Prop) (k : string) (v : value) (d : record) :
  P v -> (forall kv, In kv d -> P (snd kv)) ->
  forall kv, In kv (dict_set k v d) -> P (snd kv).
Proof.
  intros Hv. induction d as [| [k' v'] d IH]; intros Hd kv; simpl.
  - intros [<- | []]. exact Hv.
  - destruct (String.eqb k k'); simpl.
    + intros [<- | Hin]; [exact Hv | apply Hd; now right].
    + intros [<- | Hin]; [apply (Hd (k', v')); now left |].
      apply IH; [| assumption]. intros kv' Hkv'. apply Hd. now right.
Qed.

Lemma fold_dict_set_values (P : value -> Prop) (l acc : record) :
  (forall kv, In kv l -> P (snd kv)) -> (forall kv, In kv acc -> P (snd kv)) ->
  forall kv,
    In kv (fold_left (fun a kv' => dict_set (fst kv') (snd kv') a) l acc) ->
    P (snd kv).
Proof.
  revert acc. induction l as [| x l IH]; intros acc Hl Hacc; simpl; [exact Hacc |].
  apply IH.
  - intros kv Hkv. apply Hl. now right.
  - apply dict_set_values; [apply Hl; now left | exact Hacc].
Qed.

Lemma normalise_json_ordered_leaves (r : record) (kv : string * value) :
  In kv (normalise_json_ordered r) -> is_dict (snd kv) = false.
Proof.
  unfold normalise_json_ordered, dict_merge.
  apply (fold_dict_set_values (fun v => is_dict v = false)).
  - apply (fold_dict_set_values (fun v => is_dict v = false)).
    + intros kv' Hkv'. eapply normalise_json_leaves. exact Hkv'.
    + intros kv' [].
  - intros kv' Hkv'. apply filter_In in Hkv'. destruct Hkv' as [_ Hn].
    now apply negb_true_iff in Hn.
Qed.

(** After [pd.json_normalize] no cell of the frame is a mapping: every nested
    mapping has been spread over dotted columns, however deep it was. *)
Lemma json_normalize_no_mapping_cell (data : list record)
  (row : list value) (v : value)
  (Hrow : In row (rows (json_normalize data))) (Hv : In v row) :
  is_dict v = false.
Proof.
  unfold json_normalize, from_records in Hrow. simpl in Hrow.
  apply in_map_iff in Hrow. destruct Hrow as [r [<- Hr]].
  apply in_map_iff in Hr. destruct Hr as [r0 [<- _]].
  apply in_map_iff in Hv. destruct Hv as [c [<- _]].
  unfold get_or_nan. destruct (dict_get c (normalise_json_ordered r0)) as [x |] eqn:Hx;
    [| reflexivity].
  apply dict_get_Some_In in Hx.
  now apply (normalise_json_ordered_leaves r0 (c, x)).
Qed.

(** ** Renaming and flattening columns *)

Lemma index_of_map_injective (f : string -> string) (c : string) (cs : list string) :
  (forall c0, In c0 cs -> f c0 = f c -> c0 = c) ->
  index_of (f c) (map f cs) = index_of c cs.
Proof.
  induction cs as [| c0 cs IH]; intros Hinj; simpl; [reflexivity |].
  destruct (String.eqb_spec (f c) (f c0)) as [Hf | Hf].
  - rewrite (Hinj c0) by (now left || congruence). now rewrite String.eqb_refl.
  - destruct (String.eqb_spec c c0) as [-> | _]; [congruence |].
    rewrite IH; [reflexivity |]. intros c1 Hc1. apply Hinj. now right.
Qed.

(** X17.  Renaming moves a column without touching its cells: when no other column
    ends up under the same name, the column read under its new name is the
    column that was there under the old one, and the rows are unchanged. *)
Theorem rename_columns_moves_column (cfg : Config) (ms : mapping_spec)
  (df : DataFrame) (case c : string) (s : list value)
  (Hms : mapping_of cfg case = Ok ms)
  (Hs : series df c = Ok s)
  (Hfree : forall c0, In c0 (columns df) ->
             renamed (ms_rename ms) c0 = renamed (ms_rename ms) c -> c0 = c) :
  exists df', rename_columns cfg df case = Ok df'
              /\ rows df' = rows df
              /\ series df' (renamed (ms_rename ms) c) = Ok s.
Proof.
  unfold rename_columns. rewrite Hms. cbn [bind].
  destruct (ms_rename ms) as [| m0 m] eqn:Hm.
  - exists df. now repeat split.
  - exists (rename df (m0 :: m)). split; [reflexivity |]. split; [reflexivity |].
    unfold series, rename in *. simpl columns. simpl rows.
    change (map (fun c0 => match assoc c0 (m0 :: m) with
                           | Some c' => c'
                           | None => c0
                           end) (columns df))
      with (map (renamed (m0 :: m)) (columns df)).
    rewrite index_of_map_injective by exact Hfree.
    destruct (index_of c (columns df)); [exact Hs | discriminate].
Qed.

Lemma has_column_set_series (df : DataFrame) (c c' : string) (s : list value) :
  has_column (set_series df c s) c' = has_column df c'.
Proof. unfold has_column. now rewrite columns_set_series. Qed.

(** X18.  A successful [process_dict_columns] keeps the columns and the number of
    rows, means that every requested name was a column, and leaves the cells
    of every column that was not requested as they were. *)
Theorem process_dict_columns_frame (names : list string) (df df' : DataFrame)
  (Hok : process_dict_columns df names = Ok df') :
  columns df' = columns df
  /\ List.length (rows df') = List.length (rows df)
  /\ (forall c, In c names -> has_column df c = true)
  /\ (forall c, ~ In c names -> series df' c = series df c).
Proof.
  revert df Hok. induction names as [| n names IH]; intros df Hok; simpl in Hok.
  - injection Hok as <-. repeat split; auto.
  - destruct (has_column df n) eqn:Hn; [| discriminate].
    destruct (series df n) as [s |] eqn:Hs; simpl in Hok; [| discriminate].
    destruct (map_result extract_values s) as [s' |] eqn:Hm; simpl in Hok;
      [| discriminate].
    assert (Hlen : List.length s' = List.length (rows df)).
    { rewrite (map_result_length _ _ _ Hm). eapply series_length; eassumption. }
    destruct (IH _ Hok) as [I1 [I2 [I3 I4]]].
    split; [now rewrite I1, columns_set_series |].
    split; [now rewrite I2, rows_set_series |].
    split.
    + intros c [<- | Hc]; [assumption |].
      rewrite <- (has_column_set_series df n c s'). now apply I3.
    + intros c Hc. rewrite I4 by (intros Hin; apply Hc; now right).
      apply series_set_series_other; [| assumption].
      intros ->. apply Hc. now left.
Qed.

(** ** The table of the supplier groups *)

Lemma map_result_In {A B : Type} (f : A -> result B) (l : list A) (l' : list B) :
  map_result f l = Ok l' ->
  forall y, In y l' -> exists x, In x l /\ f x = Ok y.
Proof.
  revert l'. induction l as [| x l IH]; intros l'; simpl.
  - intros [= <-] y [].
  - destruct (f x) as [y0 |] eqn:Hx; simpl; [| discriminate].
    destruct (map_result f l) as [ys |]; simpl; [| discriminate].
    intros [= <-] y [<- | Hy].
    + exists x. auto.
    + destruct (IH ys eq_refl y Hy) as [x' [Hin Hx']]. exists x'. auto.
Qed.

Lemma flat_map_result_In {A B : Type} (f : A -> result (list B)) (l : list A)
  (l' : list B) :
  flat_map_result f l = Ok l' ->
  forall y, In y l' -> exists x ys, In x l /\ f x = Ok ys /\ In y ys.
Proof.
  unfold flat_map_result. destruct (map_result f l) as [yss |] eqn:Hm; simpl;
    [| discriminate].
  intros [= <-] y Hy. apply in_concat in Hy. destruct Hy as [ys [Hys Hy]].
  destruct (map_result_In f l yss Hm ys Hys) as [x [Hin Hx]].
  exists x, ys. auto.
Qed.

Lemma expand_row_keys (client_id supplier_groups : value) (recs : list record) :
  expand_row client_id supplier_groups = Ok recs ->
  forall r, In r recs -> dict_keys r = group_columns.
Proof.
  unfold expand_row. destruct (truthy supplier_groups); [| now intros [= <-] r []].
  destruct supplier_groups; try discriminate.
  intros Hok r Hr.
  destruct (flat_map_result_In _ _ _ Hok r Hr) as [g [rs [_ [Hg Hin]]]].
  unfold expand_suppliers in Hg.
  destruct (py_iter (snd g)) as [items |]; simpl in Hg; [| discriminate].
  destruct (map_result_In _ _ _ Hg r Hin) as [m [_ Hm]].
  destruct (py_getitem m "$oid"); simpl in Hm; [| discriminate].
  now injection Hm as <-.
Qed.

(** X19.  [transform_supplier_group] never returns an empty table: when it
    succeeds, the table has the three columns [client_id], [group_name],
    [supplier_id], at least one row, and one cell per column in every row. *)
Theorem transform_supplier_group_never_empty (cfg : Config) (data : list record)
  (out : DataFrame) (Hout : transform_supplier_group cfg data = Ok out) :
  columns out = group_columns /\ rows out <> [] /\ wf_frame out.
Proof.
  unfold transform_supplier_group in Hout.
  destruct (rename_columns cfg (from_records data) "supplier_group") as [d1 |];
    [| discriminate]. cbn [bind] in Hout.
  destruct (getitem_columns d1 ["client_id"; "supplier_groups"]) as [pairs |];
    [| discriminate]. cbn [bind] in Hout.
  destruct (flat_map_result (fun row => expand_row (cell 0 row) (cell 1 row))
              (rows pairs)) as [new_rows |] eqn:Hrows; [| discriminate].
  cbn [bind] in Hout.
  destruct new_rows as [| r0 new_rows]; [discriminate |].
  assert (Hkeys : forall r, In r (r0 :: new_rows) -> dict_keys r = group_columns).
  { intros r Hr.
    destruct (flat_map_result_In _ _ _ Hrows r Hr) as [row [rs [_ [Hrow Hin]]]].
    eapply expand_row_keys; eassumption. }
  rewrite (from_records_uniform group_columns) in Hout; try assumption.
  2: discriminate.
  2: { unfold group_columns. repeat constructor; simpl; intuition discriminate. }
  set (df := mkDF group_columns (map (map snd) (r0 :: new_rows))) in *.
  assert (Hwf : wf_frame df).
  { unfold wf_frame, df. cbn [columns rows]. apply Forall_forall.
    intros row Hrow. apply in_map_iff in Hrow. destruct Hrow as [r [<- Hr]].
    rewrite <- (Hkeys r Hr). unfold dict_keys. now rewrite !length_map. }
  destruct (series df "client_id") as [s |] eqn:Hs; [| discriminate].
  cbn [bind] in Hout. injection Hout as <-.
  split; [apply columns_set_series |]. split; [| now apply wf_set_series].
  intros Hnil.
  assert (Hlen : List.length (rows (set_series df "client_id" (map flatten_oid s)))
                 = List.length (rows df)).
  { apply rows_set_series. rewrite length_map. eapply series_length; eassumption. }
  rewrite Hnil in Hlen. discriminate.
Qed.

(* ================================================================== *)
(** * The further properties at concrete inputs *)

Lemma read_data_other_sources_witness :
  read_data [] "mongo" "mongodb://host/db" ["_id"] = ExtractRaise NotImplementedError.
Proof.
  apply (read_data_other_sources [] "mongo" "mongodb://host/db" ["_id"]).
  discriminate.
Defined.


Lemma boolean_check_accepts_witness :
  validate_column_types (H := strict_lib) "login" "boolean"
    (mkDF ["login"] [[VBool true]; [VInt 0]])
  = (mkDF ["login"] [[VBool true]; [VInt 0]], Ok tt).
Proof.
  apply (proj1 (boolean_check_accepts (H := strict_lib)
                  (mkDF ["login"] [[VBool true]; [VInt 0]]) "login"
                  [VBool true; VInt 0] eq_refl)).
  intros v [<- | [<- | []]]; auto.
Defined.

Lemma float_check_accepts_witness :
  snd (validate_column_types (H := strict_lib) "priority" "float"
         (mkDF ["priority"] [[VNone]; [VInt 2]]))
  = Ok tt.
Proof.
  apply (proj1 (float_check_accepts (H := strict_lib)
                  (mkDF ["priority"] [[VNone]; [VInt 2]]) "priority"
                  [VNone; VInt 2] ltac:(repeat constructor) eq_refl)).
  intros v [<- | [<- | []]]; auto.
Defined.


Lemma transform_without_select_witness :
  transform (H := strict_lib) config_without_select supplier_without_priority
    "suppliers"
  = Raise (UnboundLocalError "supplier_df").
Proof.
  eapply (fun ms_s ms_r h1 h2 h3 h4 =>
            proj1 (transform_without_select (H := strict_lib)
                     config_without_select supplier_without_priority
                     ms_s ms_r h1 h2 h3 h4));
    reflexivity.
Defined.

Lemma transform_never_exits_witness :
  is_Exception (ValueError (UnknownCase "orders")) = true.
Proof.
  apply (transform_never_exits (H := strict_lib) test_config [] "orders").
  reflexivity.
Defined.

Lemma quality_failure_aborts_witness :
  transform_suppliers (H := strict_lib) test_config supplier_with_short_id
  = Raise (ValueError (BelowLength "supplier_id" 24)).
Proof.
  eapply (fun d1 df df' h1 h2 h3 h4 h5 =>
            proj1 (quality_failure_aborts (H := strict_lib) test_config
                     supplier_with_short_id d1 df df'
                     (ValueError (BelowLength "supplier_id" 24))
                     h1 h2 h3 h4 h5));
    reflexivity.
Defined.

Lemma rename_columns_moves_column_witness :
  exists df',
    rename_columns test_config (mkDF ["_id.$oid"; "name"] [[VStr "s1"; VStr "A"]])
      "suppliers" = Ok df'
    /\ rows df' = [[VStr "s1"; VStr "A"]]
    /\ series df' "supplier_id" = Ok [VStr "s1"].
Proof.
  apply (rename_columns_moves_column test_config
           {| ms_rename := [("_id.$oid", "supplier_id")];
              ms_select := Some suppliers_columns |}
           (mkDF ["_id.$oid"; "name"] [[VStr "s1"; VStr "A"]])
           "suppliers" "_id.$oid" [VStr "s1"]).
  - reflexivity.
  - reflexivity.
  - intros c0 [<- | [<- | []]]; [reflexivity | discriminate].
Defined.

Lemma process_dict_columns_frame_witness :
  columns (mkDF ["suppliers"; "name"] [[VList [VStr "101"]; VStr "A"]])
  = ["suppliers"; "name"].
Proof.
  apply (process_dict_columns_frame ["suppliers"]
           (mkDF ["suppliers"; "name"] [[VList [wrap_oid (VStr "101")]; VStr "A"]])
           (mkDF ["suppliers"; "name"] [[VList [VStr "101"]; VStr "A"]])).
  reflexivity.
Defined.

Lemma transform_supplier_group_never_empty_witness :
  rows (mkDF group_columns [[VStr "C1"; VStr "g1"; VStr "101"]]) <> [].
Proof.
  apply (transform_supplier_group_never_empty test_config
           [supplier_group_doc (VStr "C1") [("g1", [VStr "101"])]]
           (mkDF group_columns [[VStr "C1"; VStr "g1"; VStr "101"]])).
  reflexivity.
Defined.

Lemma transform_supplier_group_expands_witness :
  transform_supplier_group test_config
    [supplier_group_doc (VStr "C1") [("g1", [VStr "101"; VStr "102"]); ("g2", [])];
     supplier_group_doc (VStr "C2") []]
  = Ok (mkDF ["client_id"; "group_name"; "supplier_id"]
          [[VStr "C1"; VStr "g1"; VStr "101"]; [VStr "C1"; VStr "g1"; VStr "102"]]).
Proof.
  apply (transform_supplier_group_expands test_config
           {| ms_rename := []; ms_select := None |}
           [(VStr "C1", [("g1", [VStr "101"; VStr "102"]); ("g2", [])]);
            (VStr "C2", [])]).
  - reflexivity.
  - reflexivity.
  - discriminate.
Defined.

Lemma extract_values_flattens_witness :
  extract_values (VList [wrap_oid (VStr "101"); wrap_oid (VStr "102")])
  = Ok (VList [VStr "101"; VStr "102"]).
Proof.
  apply (extract_values_flattens "$oid"
           [wrap_oid (VStr "101"); wrap_oid (VStr "102")]).
  - discriminate.
  - reflexivity.
Defined.

Lemma extract_values_passes_through_witness :
  extract_values (VList [VDict [("a", VInt 1); ("b", VInt 2)]])
  = Ok (VList [VDict [("a", VInt 1); ("b", VInt 2)]]).
Proof.
  apply extract_values_passes_through.
  right. right. right. eexists. split; [reflexivity |]. simpl. discriminate.
Defined.

(** ** Empty input, and primary-key failures in general *)

Lemma missing_columns_empty_frame (cols : list string) :
  missing_columns (mkDF [] []) cols = cols.
Proof. unfold missing_columns. apply filter_all_true. reflexivity. Qed.

Section EdgeCases.
Context `{PandasLib}.

(** X15.  An empty document set makes every pipeline raise [KeyError] once its
    mapping is configured: the frame of no document has no column, so the
    clients pipeline misses [suppliers], the sonar runs pipeline misses
    [supplier_ids] (before it reads any configuration), the supplier groups
    pipeline misses both of its columns, and the suppliers pipeline misses
    every column of a non-empty column list. *)
Theorem transform_empty_input (cfg : Config)
  (ms_c ms_g ms_s : mapping_spec) (cols : list string)
  (Hc : mapping_of cfg "clients" = Ok ms_c)
  (Hg : mapping_of cfg "supplier_group" = Ok ms_g)
  (Hs : mapping_of cfg "suppliers" = Ok ms_s)
  (Hcols : ms_select ms_s = Some cols) (Hne : cols <> []) :
  transform cfg [] "clients" = Raise (KeyError ["suppliers"])
  /\ transform cfg [] "sonar_runs" = Raise (KeyError ["supplier_ids"])
  /\ transform cfg [] "supplier_group"
     = Raise (KeyError ["client_id"; "supplier_groups"])
  /\ transform cfg [] "suppliers" = Raise (KeyError cols).
Proof.
  unfold transform. simpl.
  unfold transform_clients, transform_supplier_group, transform_suppliers,
    rename_columns, select_stage.
  rewrite Hc, Hg, Hs. cbn [bind]. rewrite Hcols.
  repeat split.
  - now destruct (ms_rename ms_c).
  - now destruct (ms_rename ms_g).
  - assert (Hsel : forall df, columns df = [] -> rows df = [] ->
                     getitem_columns df cols = Raise (KeyError cols)).
    { intros [cs rs] Hcs Hrs. simpl in Hcs, Hrs. subst.
      unfold getitem_columns. rewrite missing_columns_empty_frame.
      destruct cols; [congruence | reflexivity]. }
    destruct (ms_rename ms_s); cbn [bind]; now rewrite Hsel.
Qed.


End EdgeCases.

Lemma transform_empty_input_witness :
  transform (H := strict_lib) test_config [] "suppliers"
  = Raise (KeyError suppliers_columns).
Proof.
  eapply (fun ms_c ms_g ms_s h1 h2 h3 h4 h5 =>
            proj2 (proj2 (proj2
              (transform_empty_input (H := strict_lib) test_config
                 ms_c ms_g ms_s suppliers_columns h1 h2 h3 h4 h5))));
    try reflexivity.
  discriminate.
Defined.

